(** * The demo backend server (demo/backend/server/app.py)

    A shallow embedding of the Flask application of the SAM 2 demo
    backend: the static media routes, the streaming propagation route
    with its chunk generator, and the background-propagation routes
    (start, status, download).

    Python values are embedded as follows.
    - [str] and [bytes] are [string] (a list of bytes); [encode("UTF-8")]
      is the identity on that representation.
    - a dict with string keys is a [gmap string pyval] when only lookups
      matter (the request body) and an association list when it is
      serialised (a status, a response body, the chunk headers).
    - a raised exception is the [Raise] case of [result].
    - the [inference_api] object is a state threaded through the
      handlers that use it. *)

From Stdlib Require Import ZArith Ascii String.
From stdpp Require Import base option list gmap strings countable.

Local Open Scope string_scope.

(** ** Python values, exceptions *)

(** The scalar values that pass through the handlers: JSON scalars of a
    request body, fields of a status. *)
Inductive pyval : Type :=
  | PyNone
  | PyBool (b : bool)
  | PyInt (n : Z)
  | PyStr (s : string).

#[global] Instance pyval_eq_dec : EqDecision pyval.
Proof. solve_decision. Defined.

#[global] Instance pyval_countable : Countable pyval.
Proof.
  refine (inj_countable'
    (fun v => match v with
              | PyNone => inl ()
              | PyBool b => inr (inl b)
              | PyInt n => inr (inr (inl n))
              | PyStr s => inr (inr (inr s))
              end)
    (fun x => match x with
              | inl _ => PyNone
              | inr (inl b) => PyBool b
              | inr (inr (inl n)) => PyInt n
              | inr (inr (inr s)) => PyStr s
              end) _).
  by intros [].
Defined.

(** [bool(v)]: Python truthiness; [not v] is its negation. *)
Definition truthy (v : pyval) : bool :=
  match v with
  | PyNone => false
  | PyBool b => b
  | PyInt n => negb (n =? 0)%Z
  | PyStr s => negb (String.eqb s "")
  end.

(** A dict in insertion order. *)
Definition pydict : Type := list (string * pyval).

(** [d.get(k)]: the value at [k], [None] when the key is missing. *)
Fixpoint dict_get (d : pydict) (k : string) : pyval :=
  match d with
  | [] => PyNone
  | (k', v) :: d' => if String.eqb k' k then v else dict_get d' k
  end.

(** The exceptions that occur.  [KeyboardInterrupt] derives from
    [BaseException] only; every other one derives from [Exception]. *)
Inductive exn : Type :=
  | NotFound
  | PermissionError
  | KeyError (key : string)
  | TypeError
  | ValueError (msg : string)
  | RuntimeError (msg : string)
  | KeyboardInterrupt.

Definition is_Exception (e : exn) : bool :=
  match e with
  | KeyboardInterrupt => false
  | _ => true
  end.

Inductive result (A : Type) : Type :=
  | Ok (a : A)
  | Raise (e : exn).
Arguments Ok {A} a.
Arguments Raise {A} e.

(** ** Paths: pathlib, posixpath, werkzeug's safe_join *)

(** [s.endswith("/")]. *)
Fixpoint endswith_sep (s : string) : bool :=
  match s with
  | EmptyString => false
  | String c EmptyString => Ascii.eqb c "/"
  | String _ s' => endswith_sep s'
  end.

(** [s.startswith(p)]. *)
Fixpoint startswith (s p : string) : bool :=
  match p, s with
  | EmptyString, _ => true
  | String _ _, EmptyString => false
  | String a p', String b s' => Ascii.eqb a b && startswith s' p'
  end.

Module posixpath.

Definition sep : ascii := "/"%char.

(** [s.split("/")]. *)
Fixpoint split (s : string) : list string :=
  match s with
  | EmptyString => [""]
  | String c s' =>
      if Ascii.eqb c sep then "" :: split s'
      else match split s' with
           | [] => [String c ""]
           | h :: t => String c h :: t
           end
  end.

(** ["/".join(comps)]. *)
Definition join_comps (comps : list string) : string :=
  String.concat "/" comps.

(** The loop of [normpath] over the components, [new_comps] being the
    stack built so far, kept in reverse (last component first). *)
Fixpoint normpath_loop (initial_slashes : nat) (comps new_comps : list string)
    : list string :=
  match comps with
  | [] => rev new_comps
  | comp :: comps' =>
      if bool_decide (comp = "" ∨ comp = ".") then
        normpath_loop initial_slashes comps' new_comps
      else if bool_decide (comp ≠ "..")
              || (Nat.eqb initial_slashes 0 && bool_decide (new_comps = []))
              || bool_decide (head new_comps = Some "..") then
        normpath_loop initial_slashes comps' (comp :: new_comps)
      else
        normpath_loop initial_slashes comps' (tail new_comps)
  end.

(** POSIX allows one or two initial slashes, three or more count as
    one. *)
Definition initial_slashes (path : string) : nat :=
  if startswith path "/" then
    if startswith path "//" && negb (startswith path "///") then 2
    else 1
  else 0.

Definition normpath (path : string) : string :=
  if String.eqb path "" then "."
  else
    let n := initial_slashes path in
    let comps := normpath_loop n (split path) [] in
    let path' := String.concat "" (replicate n "/") +:+ join_comps comps in
    if String.eqb path' "" then "." else path'.

(** [posixpath.join(a, p)] for two arguments. *)
Definition join (a p : string) : string :=
  if startswith p "/" then p
  else if String.eqb a "" || endswith_sep a then a +:+ p
  else a +:+ "/" +:+ p.

End posixpath.

(** [PurePosixPath(path).name]: the last of the components that are
    neither empty nor ["."], the empty string when there is none. *)
Definition Path_name (path : string) : string :=
  List.last (filter (fun x => x ≠ "" ∧ x ≠ ".") (posixpath.split path)) "".

(** werkzeug's [safe_join(directory, filename)] on a POSIX system, where
    there is no alternative separator: [None] when the normalised
    [filename] is absolute or climbs out of [directory]. *)
Definition root_of (directory : string) : string :=
  if String.eqb directory "" then "." else directory.

Definition safe_join (directory filename : string) : option string :=
  let directory := root_of directory in
  let filename :=
    if negb (String.eqb filename "") then posixpath.normpath filename
    else filename in
  if startswith filename "/"
     || String.eqb filename ".."
     || startswith filename "../"
  then None
  else Some (posixpath.join directory filename).

(** ** The file system and the responses *)

(** What [os.path.isfile] and [open] find at a path. *)
Inductive node : Type :=
  | Regular (content : string)
  | Unreadable
  | Directory.

Definition filesystem : Type := string → option node.

(** What a path resolves to: a path with a trailing slash resolves to a
    directory or to nothing. *)
Definition stat (fs : filesystem) (path : string) : option node :=
  if endswith_sep path then
    match fs path with
    | Some Directory => Some Directory
    | _ => None
    end
  else fs path.

(** The body of a plain response: a literal text, or the text that
    [json.dumps] gives for a dict. *)
Inductive payload : Type :=
  | Text (s : string)
  | json_dumps (d : pydict).

Section Responses.

(** The type of the generator a streaming response iterates. *)
Context {G : Type}.

Inductive Response : Type :=
  | make_response (body : payload) (status : Z)
  | send_file (path_str : string) (content : string) (as_attachment : bool)
  | streaming (frame : G) (mimetype : string).

Variable fs : filesystem.

(** Flask's [send_from_directory(directory, path, as_attachment=...)]:
    werkzeug joins safely, answers [NotFound] unless the joined path
    is a regular file, and sends that file.  The roots of app_conf are
    taken absolute, so that joining with the application root leaves
    them as they are. *)
Definition send_from_directory (directory path : string) (as_attachment : bool)
    : result Response :=
  match safe_join directory path with
  | None => Raise NotFound
  | Some path_str =>
      match stat fs path_str with
      | Some (Regular content) => Ok (send_file path_str content as_attachment)
      | Some Unreadable => Raise PermissionError
      | Some Directory | None => Raise NotFound
      end
  end.

(** The value under ["started"] in the JSON body of a response. *)
Definition started_field (r : result Response) : pyval :=
  match r with
  | Ok (make_response (json_dumps d) _) => dict_get d "started"
  | _ => PyNone
  end.

End Responses.
Arguments Response G : clear implicits.

(** [try: body  except: handler] and [try: body  except Exception: handler]. *)
Definition try_except {A} (body : result A) (handler : result A) : result A :=
  match body with
  | Ok a => Ok a
  | Raise _ => handler
  end.

Definition try_except_Exception {A} (body : result A) (handler : result A)
    : result A :=
  match body with
  | Ok a => Ok a
  | Raise e => if is_Exception e then handler else Raise e
  end.

(** ** Static media routes *)

Section StaticRoutes.

Context {G : Type}.
(** The roots of [app_conf]. *)
Variables GALLERY_PATH POSTERS_PATH UPLOADS_PATH SEGMENTS_PATH : string.
Variable fs : filesystem.

Definition send_gallery_video (path : string) : result (Response G) :=
  try_except
    (send_from_directory fs GALLERY_PATH path false)
    (Raise (ValueError "resource not found")).

Definition send_poster_image (path : string) : result (Response G) :=
  try_except
    (send_from_directory fs POSTERS_PATH path false)
    (Raise (ValueError "resource not found")).

Definition send_uploaded_video (path : string) : result (Response G) :=
  try_except
    (send_from_directory fs UPLOADS_PATH path false)
    (Raise (ValueError "resource not found")).

Definition send_segment_file (path : string) : result (Response G) :=
  try_except_Exception
    (send_from_directory fs SEGMENTS_PATH path true)
    (Raise (ValueError "resource not found")).

End StaticRoutes.

(** ** The propagation status and the registry *)

Inductive state : Type := PENDING | RUNNING | COMPLETE | FAILED.

#[global] Instance state_eq_dec : EqDecision state.
Proof. solve_decision. Defined.

Record PropagationStatus : Type := {
  status_state : state;
  result_path : option string;
  error : option string;
}.

Definition state_name (s : state) : string :=
  match s with
  | PENDING => "PENDING"
  | RUNNING => "RUNNING"
  | COMPLETE => "COMPLETE"
  | FAILED => "FAILED"
  end.

Definition optional_field (k : string) (v : option string) : pydict :=
  match v with
  | Some s => [(k, PyStr s)]
  | None => []
  end.

(** Modelled from the spec: the dict that the inference API hands out
    for a status (inference/predictor.py is not part of the sources):
    the state, and the optional result path and error when they are set. *)
Definition to_dict (st : PropagationStatus) : pydict :=
  ("state", PyStr (state_name (status_state st)))
    :: optional_field "result_path" (result_path st)
    ++ optional_field "error" (error st).

Definition is_active (st : PropagationStatus) : bool :=
  bool_decide (status_state st = PENDING ∨ status_state st = RUNNING).

Module Registry.

(** Modelled from the spec: the Propagation Session Registry, the
    table from session identifier to status kept by the inference API
    (inference/predictor.py is not part of the sources). *)
Abbreviation t := (gmap pyval PropagationStatus).

Definition pending : PropagationStatus :=
  {| status_state := PENDING; result_path := None; error := None |}.

(** Modelled from the spec: [start] creates a PENDING entry if none
    exists for the session and is a no-op if one exists (an active
    job is not duplicated, a terminal entry is immutable); it returns
    whether a new job was started. *)
Definition start (session_id : pyval) (reg : t) : bool * t :=
  match reg !! session_id with
  | None => (true, <[session_id := pending]> reg)
  | Some _ => (false, reg)
  end.

(** Modelled from the spec: [get_status] is a read-only snapshot that
    fails with NotFound if the session was never started. *)
Definition get_status (session_id : pyval) (reg : t) : result PropagationStatus :=
  match reg !! session_id with
  | Some st => Ok st
  | None => Raise NotFound
  end.

(** Modelled from the spec: [advance] moves PENDING to RUNNING and is
    idempotent once RUNNING. *)
Definition advance (session_id : pyval) (reg : t) : t :=
  match reg !! session_id with
  | Some st =>
      if bool_decide (status_state st = PENDING) then
        <[session_id := {| status_state := RUNNING;
                           result_path := None; error := None |}]> reg
      else reg
  | None => reg
  end.

(** Modelled from the spec: [complete] and [fail] move an active
    session to its terminal state; terminal states are never
    overwritten. *)
Definition complete (session_id : pyval) (path : string) (reg : t) : t :=
  match reg !! session_id with
  | Some st =>
      if is_active st then
        <[session_id := {| status_state := COMPLETE;
                           result_path := Some path; error := None |}]> reg
      else reg
  | None => reg
  end.

Definition fail (session_id : pyval) (msg : string) (reg : t) : t :=
  match reg !! session_id with
  | Some st =>
      if is_active st then
        <[session_id := {| status_state := FAILED;
                           result_path := None; error := Some msg |}]> reg
      else reg
  | None => reg
  end.

(** The calls that reach the registry over the life of the process. *)
Inductive event : Type :=
  | Start (session_id : pyval)
  | Advance (session_id : pyval)
  | Complete (session_id : pyval) (path : string)
  | Fail (session_id : pyval) (msg : string).

Definition step (reg : t) (e : event) : t :=
  match e with
  | Start sid => snd (start sid reg)
  | Advance sid => advance sid reg
  | Complete sid path => complete sid path reg
  | Fail sid msg => fail sid msg reg
  end.

(** The registry after a history of calls, starting empty. *)
Definition after (history : list event) : t := foldl step ∅ history.

End Registry.

(** Only a COMPLETE status carries a result path. *)
Definition path_only_when_complete (reg : Registry.t) : Prop :=
  ∀ sid st, reg !! sid = Some st →
            is_Some (result_path st) → status_state st = COMPLETE.

(** ** The chunk codec *)

Module MultipartResponseBuilder.

(** Modelled from the spec: a chunk of the Frame Result Codec
    (inference/multipart.py is not part of the sources): a boundary
    token, an ordered header mapping and a body. *)
Record t : Type := build {
  boundary : string;
  headers : list (string * string);
  body : string;
}.

Definition CRLF : string := String "013" (String "010" "").

Definition header_line (h : string * string) : string :=
  fst h +:+ ": " +:+ snd h +:+ CRLF.

(** Modelled from the spec: the boundary marker on its own line, one
    header line [Key: Value] per entry, a blank line, then the raw
    body bytes with no length prefix. *)
Definition get_message (m : t) : string :=
  "--" +:+ boundary m +:+ CRLF
    +:+ String.concat "" (map header_line (headers m))
    +:+ CRLF +:+ body m.

(** [headers[k]] of a chunk. *)
Fixpoint header (hs : list (string * string)) (k : string) : option string :=
  match hs with
  | [] => None
  | (k', v) :: hs' => if String.eqb k' k then Some v else header hs' k
  end.

End MultipartResponseBuilder.

(** ** The inference API and the handlers that use it *)

Record PropagateInVideoRequest : Type := {
  type : string;
  session_id : pyval;
  start_frame_index : pyval;
}.

Section Server.

(** The collaborators that app.py only calls: the predictor state of
    the inference API, the results it yields, their JSON text, and the
    iterator that [inference_api.propagate_in_video] returns, advanced
    by [iter_next] (one [next] of the iterator: an item and the
    iterator's new state, the end of the sequence, or an error).  The
    iterator runs the predictor; the registry of background jobs is
    out of its reach, the spec keeping streaming independent of the
    background job path. *)
Context {P Result I : Type}.
Variable to_json : Result → string.
Variable api_propagate_in_video : PropagateInVideoRequest → I.
Variable iter_next : I → P → result (option (Result * I)) * P.
Variable SEGMENTS_PATH : string.
Variable fs : filesystem.

(** What launching a background job does on the collaborator's side:
    the runner takes the request over, with its session and its start
    frame, and works on it off the request thread. *)
Variable launch : PropagateInVideoRequest → P → P.

(** The state behind [inference_api]: the registry of background jobs
    and the predictor. *)
Record InferenceAPI : Type := {
  sessions : Registry.t;
  predictor : P;
}.

(** Handlers run over the inference API and may raise. *)
Definition M (A : Type) : Type := InferenceAPI → result A * InferenceAPI.

#[local] Instance M_ret : MRet M := fun A a api => (Ok a, api).
#[local] Instance M_bind : MBind M := fun A B f m api =>
  match m api with
  | (Ok a, api') => f a api'
  | (Raise e, api') => (Raise e, api')
  end.

Definition raise {A} (e : exn) : M A := fun api => (Raise e, api).
Definition lift {A} (r : result A) : M A := fun api => (r, api).

(** [data[k]] on the request body. *)
Definition getitem (data : gmap string pyval) (k : string) : M pyval :=
  match data !! k with
  | Some v => mret v
  | None => raise (KeyError k)
  end.

(** [data.get(k, d)]. *)
Definition get (data : gmap string pyval) (k : string) (d : pyval) : pyval :=
  default d (data !! k).

(** Modelled from the spec: [inference_api.start_propagate_background]
    registers the job with the registry and, when the job is new,
    launches it with the request it was given; a trigger for a session
    that already has an entry launches nothing.  The job itself runs
    off the request thread and is not part of the call. *)
Definition start_propagate_background (request : PropagateInVideoRequest) : M bool :=
  fun api =>
    let '(started, reg) := Registry.start (session_id request) (sessions api) in
    (Ok started,
     {| sessions := reg;
        predictor := if started then launch request (predictor api)
                     else predictor api |}).

(** Modelled from the spec: [inference_api.get_propagation_status]. *)
Definition get_propagation_status (session_id : string) : M pydict :=
  fun api =>
    match Registry.get_status (PyStr session_id) (sessions api) with
    | Ok st => (Ok (to_dict st), api)
    | Raise e => (Raise e, api)
    end.

(** *** The chunk generator *)

Definition stream_headers : list (string * string) :=
  [ ("Content-Type", "application/json; charset=utf-8");
    ("Frame-Current", "-1");
    ("Frame-Total", "-1");
    ("Mask-Type", "RLE[]") ].

(** The chunk that one result becomes. *)
Definition frame_chunk (boundary : string) (chunk : Result)
    : MultipartResponseBuilder.t :=
  MultipartResponseBuilder.build boundary stream_headers (to_json chunk).

(** A generator object of [gen_track_with_mask_stream]: created and
    not yet run, suspended at the [yield] inside the loop over the
    collaborator's iterator, or finished. *)
Inductive generator : Type :=
  | gen_created (boundary : string) (session_id start_frame_index : pyval)
  | gen_suspended (boundary : string) (it : I)
  | gen_finished.

Definition gen_track_with_mask_stream
    (boundary : string) (session_id start_frame_index : pyval) : generator :=
  gen_created boundary session_id start_frame_index.

(** One turn of the [for] loop: pull the next result and yield its
    chunk, or leave the loop. *)
Definition gen_loop (boundary : string) (it : I) : M (option (string * generator)) :=
  fun api =>
    match iter_next it (predictor api) with
    | (Ok (Some (chunk, it')), p) =>
        (Ok (Some (MultipartResponseBuilder.get_message (frame_chunk boundary chunk),
                   gen_suspended boundary it')),
         {| sessions := sessions api; predictor := p |})
    | (Ok None, p) => (Ok None, {| sessions := sessions api; predictor := p |})
    | (Raise e, p) => (Raise e, {| sessions := sessions api; predictor := p |})
    end.

(** [next(g)]: [None] is StopIteration.  The autocast context manager
    that surrounds the loop only sets the tensor precision mode. *)
Definition gen_next (g : generator) : M (option (string * generator)) :=
  match g with
  | gen_created boundary session_id start_frame_index =>
      let request :=
        {| type := "propagate_in_video";
           session_id := session_id;
           start_frame_index := start_frame_index |} in
      gen_loop boundary (api_propagate_in_video request)
  | gen_suspended boundary it => gen_loop boundary it
  | gen_finished => mret None
  end.

(** The iterator a generator pulls from next, and its boundary. *)
Definition gen_iter (g : generator) : option I :=
  match g with
  | gen_created _ session_id start_frame_index =>
      Some (api_propagate_in_video
              {| type := "propagate_in_video";
                 session_id := session_id;
                 start_frame_index := start_frame_index |})
  | gen_suspended _ it => Some it
  | gen_finished => None
  end.

Definition gen_boundary (g : generator) : string :=
  match g with
  | gen_created boundary _ _ | gen_suspended boundary _ => boundary
  | gen_finished => ""
  end.

(** [yields it p rs p']: iterated from state [it] with the predictor
    at [p], the collaborator yields exactly the results [rs] and is
    then exhausted, leaving the predictor at [p']. *)
Inductive yields : I → P → list Result → P → Prop :=
  | yields_done it p p' :
      iter_next it p = (Ok None, p') →
      yields it p [] p'
  | yields_item it p r it' p1 rs p' :
      iter_next it p = (Ok (Some (r, it')), p1) →
      yields it' p1 rs p' →
      yields it p (r :: rs) p'.

(** [yields_then_raises it p rs e p']: the collaborator yields the
    results [rs] and then, instead of a further item, raises [e]. *)
Inductive yields_then_raises : I → P → list Result → exn → P → Prop :=
  | raises_now it p e p' :
      iter_next it p = (Raise e, p') →
      yields_then_raises it p [] e p'
  | raises_later it p r it' p1 rs e p' :
      iter_next it p = (Ok (Some (r, it')), p1) →
      yields_then_raises it' p1 rs e p' →
      yields_then_raises it p (r :: rs) e p'.

(** The transport pulling at most [n] chunks from the response. *)
Fixpoint drain (n : nat) (g : generator) (api : InferenceAPI)
    : list string * result generator * InferenceAPI :=
  match n with
  | 0 => ([], Ok g, api)
  | S n' =>
      match gen_next g api with
      | (Ok (Some (c, g')), api') =>
          let '(cs, r, api'') := drain n' g' api' in (c :: cs, r, api'')
      | (Ok None, api') => ([], Ok gen_finished, api')
      | (Raise e, api') => ([], Raise e, api')
      end
  end.

(** *** The routes *)

Definition healthy : Response generator := make_response (Text "OK") 200.

Definition propagate_in_video (data : gmap string pyval) : M (Response generator) :=
  session_id ← getitem data "session_id";
  let start_frame_index := get data "start_frame_index" (PyInt 0) in
  let boundary := "frame" in
  let frame := gen_track_with_mask_stream boundary session_id start_frame_index in
  mret (streaming frame ("multipart/x-savi-stream; boundary=" +:+ boundary)).

Definition background_propagate (data : gmap string pyval) : M (Response generator) :=
  session_id ← getitem data "session_id";
  let request_obj :=
    {| type := "propagate_in_video";
       session_id := session_id;
       start_frame_index := get data "start_frame_index" (PyInt 0) |} in
  _ ← start_propagate_background request_obj;
  mret (make_response (json_dumps [("started", PyBool true)]) 200).

Definition propagate_status (session_id : string) : M (Response generator) :=
  status ← get_propagation_status session_id;
  mret (make_response (json_dumps status) 200).

(** [Path(path)] needs a string. *)
Definition Path (path : pyval) : result string :=
  match path with
  | PyStr s => Ok s
  | _ => Raise TypeError
  end.

Definition download_segments (session_id : string) : M (Response generator) :=
  status ← get_propagation_status session_id;
  let path := dict_get status "result_path" in
  if negb (truthy path) then mret (make_response (Text "not ready") 404)
  else
    p ← lift (Path path);
    lift (send_from_directory fs SEGMENTS_PATH (Path_name p) true).

End Server.

(** ** Path components *)

(** A string without a separator. *)
Fixpoint no_sep (s : string) : bool :=
  match s with
  | EmptyString => true
  | String c s' => negb (Ascii.eqb c posixpath.sep) && no_sep s'
  end.

(** A plain file name: one path component that names an entry of the
    directory it is looked up in. *)
Definition is_filename (s : string) : bool :=
  no_sep s && negb (String.eqb s "") && negb (String.eqb s ".")
    && negb (String.eqb s "..").

(** A relative path that stays inside the directory it is joined to:
    nothing, the directory itself, or a chain of file names. *)
Definition stays_inside (rel : string) : Prop :=
  rel = "" ∨ rel = "." ∨
  ∃ comps, comps ≠ [] ∧ Forall (λ c, is_filename c = true) comps
           ∧ rel = posixpath.join_comps comps.

(** Walking the components of a relative path from depth [depth]
    below the directory: does some [..] step above the directory? *)
Fixpoint climbs_out (depth : nat) (comps : list string) : bool :=
  match comps with
  | [] => false
  | c :: comps' =>
      if bool_decide (c = "" ∨ c = ".") then climbs_out depth comps'
      else if bool_decide (c = "..") then
        match depth with
        | 0 => true
        | S d => climbs_out d comps'
        end
      else climbs_out (S depth) comps'
  end.

(** A path that leaves the directory it is requested under: absolute,
    or climbing above the directory at some point. *)
Definition traversal (path : string) : bool :=
  startswith path "/" || climbs_out 0 (posixpath.split path).

(** ** Sample collaborators *)

Module Sample.

(** A media tree with one artifact and one gallery video, and a file
    outside the roots. *)
Definition fs : filesystem := fun p =>
  if String.eqb p "/data/gallery/a.mp4" then Some (Regular "video")
  else if String.eqb p "/data/segments/s1.zip" then Some (Regular "masks")
  else if String.eqb p "/data/segments/locked.zip" then Some Unreadable
  else if String.eqb p "/data/gallery/sub" then Some Directory
  else if String.eqb p "/etc/passwd" then Some (Regular "root")
  else None.

(** An inference collaborator whose results are numbers: the iterator
    is the list of results still to come, the predictor counts the
    frames it has produced. *)
Definition to_json (r : nat) : string :=
  match r with
  | 0 => "[0]"
  | 1 => "[1]"
  | _ => "[2]"
  end.

Definition api_propagate_in_video (request : PropagateInVideoRequest) : list nat :=
  match start_frame_index request with
  | PyInt 0 => [0; 1; 2]
  | PyInt 1 => [1; 2]
  | _ => []
  end.

Definition iter_next (it : list nat) (p : nat)
    : result (option (nat * list nat)) * nat :=
  match it with
  | [] => (Ok None, p)
  | r :: it' => (Ok (Some (r, it')), S p)
  end.

Definition api (reg : Registry.t) : @InferenceAPI nat :=
  {| sessions := reg; predictor := 0 |}.

Definition body (session_id : string) : gmap string pyval :=
  {[ "session_id" := PyStr session_id ]}.

End Sample.

Module SampleRuns.

Import Registry.

Abbreviation API := (@InferenceAPI nat).
Abbreviation Resp := (Response (@generator (list nat))).

(** The session s1 with a running job, and with a finished one whose
    stored path has components outside the segments root. *)
Definition running : Registry.t :=
  after [Start (PyStr "s1"); Advance (PyStr "s1")].
Definition finished : Registry.t :=
  after [Start (PyStr "s1"); Advance (PyStr "s1");
         Complete (PyStr "s1") "/etc/../../tmp/s1.zip"].

Definition started_true : Resp :=
  make_response (json_dumps [("started", PyBool true)]) 200.

Definition chunk (r : nat) : string :=
  MultipartResponseBuilder.get_message (frame_chunk Sample.to_json "frame" r).

(** The request that a body without start_frame_index leads to. *)
Definition request_s1 : PropagateInVideoRequest :=
  {| type := "propagate_in_video"; session_id := PyStr "s1";
     start_frame_index := PyInt 0 |}.

Definition next : @generator (list nat) → API → _ :=
  gen_next Sample.to_json Sample.api_propagate_in_video Sample.iter_next.

Definition pull : nat → @generator (list nat) → API → _ :=
  drain Sample.to_json Sample.api_propagate_in_video Sample.iter_next.

Definition fresh : @generator (list nat) :=
  gen_created "frame" (PyStr "s1") (PyInt 0).

End SampleRuns.

Module SampleJobs.

(** An inference collaborator that keeps the requests of the background
    jobs it was given, latest last; streaming leaves that list alone. *)
Definition launch (request : PropagateInVideoRequest)
    (jobs : list PropagateInVideoRequest) : list PropagateInVideoRequest :=
  (jobs ++ [request])%list.

Definition iter_next (it : list nat) (jobs : list PropagateInVideoRequest)
    : result (option (nat * list nat)) * list PropagateInVideoRequest :=
  match it with
  | [] => (Ok None, jobs)
  | r :: it' => (Ok (Some (r, it')), jobs)
  end.

Definition api (reg : Registry.t) (jobs : list PropagateInVideoRequest)
    : @InferenceAPI (list PropagateInVideoRequest) :=
  {| sessions := reg; predictor := jobs |}.

Definition next : @generator (list nat) → @InferenceAPI (list PropagateInVideoRequest) → _ :=
  gen_next Sample.to_json Sample.api_propagate_in_video iter_next.

End SampleJobs.

Module SampleMedia.

(** A media tree with the same file name under each root, and a file
    outside the roots. *)
Definition fs : filesystem := fun p =>
  if String.eqb p "/data/gallery/a.mp4" then Some (Regular "gallery video")
  else if String.eqb p "/data/posters/a.mp4" then Some (Regular "poster")
  else if String.eqb p "/data/uploads/a.mp4" then Some (Regular "upload")
  else if String.eqb p "/data/segments/a.mp4" then Some (Regular "segment")
  else if String.eqb p "/etc/passwd" then Some (Regular "root")
  else None.

End SampleMedia.

Module SampleFlaky.

(** A collaborator that fails when it reaches frame 2. *)
Definition iter_next (it : list nat) (p : nat)
    : result (option (nat * list nat)) * nat :=
  match it with
  | [] => (Ok None, p)
  | 2 :: _ => (Raise (RuntimeError "inference failed"), p)
  | r :: it' => (Ok (Some (r, it')), S p)
  end.

Definition pull : nat → @generator (list nat) → @InferenceAPI nat → _ :=
  drain Sample.to_json Sample.api_propagate_in_video iter_next.

(** A body that names the session and gives a null start frame. *)
Definition body_null : gmap string pyval :=
  {[ "session_id" := PyStr "s1"; "start_frame_index" := PyNone ]}.

Definition request_null : PropagateInVideoRequest :=
  {| type := "propagate_in_video"; session_id := PyStr "s1";
     start_frame_index := PyNone |}.

(** The session s1 finished with its artifact stored under the
    segments root. *)
Definition stored : Registry.t :=
  Registry.after [Registry.Start (PyStr "s1"); Registry.Advance (PyStr "s1");
                  Registry.Complete (PyStr "s1") "/data/segments/s1.zip"].
Definition stored_status : PropagationStatus :=
  {| status_state := COMPLETE;
     result_path := Some "/data/segments/s1.zip"; error := None |}.

(** The session s1 finished with an artifact that cannot be read. *)
Definition locked : Registry.t :=
  Registry.after [Registry.Start (PyStr "s1");
                  Registry.Complete (PyStr "s1") "/data/segments/locked.zip"].
Definition locked_status : PropagationStatus :=
  {| status_state := COMPLETE;
     result_path := Some "/data/segments/locked.zip"; error := None |}.

End SampleFlaky.

(** * Properties *)

(** ** File names and safe joining *)

Lemma no_sep_prefix_slash (s : string) :
  no_sep s = true → startswith s "/" = false.
Proof.
  destruct s as [|c s]; [done|]. cbn -[Ascii.eqb].
  rewrite (Ascii.eqb_sym "/" c). unfold posixpath.sep.
  by destruct (Ascii.eqb c "/").
Qed.

Lemma no_sep_prefix_dotdot (s : string) :
  no_sep s = true → startswith s "../" = false.
Proof.
  destruct s as [|c1 [|c2 [|c3 s]]]; cbn -[Ascii.eqb];
    rewrite ?andb_false_r; try done.
  rewrite (Ascii.eqb_sym "/" c3). unfold posixpath.sep.
  destruct (Ascii.eqb c3 "/"); cbn -[Ascii.eqb]; by rewrite ?andb_false_r.
Qed.

Lemma split_nonempty (s : string) : posixpath.split s ≠ [].
Proof. induction s as [|c s IH]; simpl; [done|]. by repeat case_match. Qed.

Lemma split_no_sep (s c : string) :
  c ∈ posixpath.split s → no_sep c = true.
Proof.
  revert c. induction s as [|a s IH]; simpl; intros c Hc.
  - apply list_elem_of_singleton in Hc. by subst.
  - destruct (Ascii.eqb a posixpath.sep) eqn:Ha.
    + apply elem_of_cons in Hc as [->|Hc]; [done|by apply IH].
    + destruct (posixpath.split s) as [|h t] eqn:Hs.
      * by destruct (split_nonempty s).
      * apply elem_of_cons in Hc as [->|Hc].
        -- simpl. rewrite Ha. simpl. apply IH. left.
        -- apply IH. by right.
Qed.

Lemma split_of_no_sep (s : string) :
  no_sep s = true → posixpath.split s = [s].
Proof.
  induction s as [|a s IH]; simpl; [done|].
  intros [Ha Hs]%andb_true_iff. apply negb_true_iff in Ha.
  by rewrite Ha, (IH Hs).
Qed.

Lemma last_elem_of {A} (l : list A) (d : A) : l ≠ [] → List.last l d ∈ l.
Proof.
  induction l as [|x [|y l] IH]; [done| |]; intros _.
  - left.
  - right. by apply IH.
Qed.

(** The name of a path is empty, or a component other than ["."]. *)
Lemma Path_name_component (p : string) :
  Path_name p = "" ∨
  (no_sep (Path_name p) = true ∧ Path_name p ≠ "" ∧ Path_name p ≠ ".").
Proof.
  unfold Path_name.
  destruct (filter _ (posixpath.split p)) as [|x l] eqn:Hf; [by left|].
  right.
  assert (List.last (x :: l) "" ∈ filter (λ x, x ≠ "" ∧ x ≠ ".") (posixpath.split p))
    as [[? ?] Hin]%list_elem_of_filter.
  { rewrite Hf. by apply last_elem_of. }
  eauto using split_no_sep.
Qed.

Lemma normpath_component (n : string) :
  no_sep n = true → n ≠ "" → n ≠ "." → posixpath.normpath n = n.
Proof.
  intros Hsep Hne Hdot. unfold posixpath.normpath, posixpath.initial_slashes.
  apply String.eqb_neq in Hne as Hne'. rewrite Hne'.
  rewrite (no_sep_prefix_slash n Hsep), (split_of_no_sep n Hsep).
  cbn -[String.eqb].
  rewrite bool_decide_eq_false_2 by (intros [?|?]; done).
  rewrite orb_true_r. cbn -[String.eqb].
  change ("" +:+ n) with n. by rewrite Hne'.
Qed.

(** Joining a directory with a file name gives an entry of that
    directory; [".."] is refused. *)
Lemma safe_join_component (directory n : string) :
  no_sep n = true → n ≠ "" → n ≠ "." →
  safe_join directory n =
    if String.eqb n ".." then None
    else Some (posixpath.join (root_of directory) n).
Proof.
  intros Hsep Hne Hdot. unfold safe_join.
  rewrite (proj2 (String.eqb_neq n "") Hne). cbn -[String.eqb startswith].
  rewrite (normpath_component n) by done.
  rewrite (no_sep_prefix_slash n Hsep), (no_sep_prefix_dotdot n Hsep).
  cbn -[String.eqb]. by rewrite orb_false_r.
Qed.

Lemma endswith_sep_app (a n : string) :
  n ≠ "" → endswith_sep (a +:+ n) = endswith_sep n.
Proof.
  intros Hn. induction a as [|c a IH]; [done|].
  change (String c a +:+ n) with (String c (a +:+ n)).
  destruct (a +:+ n) eqn:Hs.
  - by destruct a, n.
  - by rewrite <- IH.
Qed.

Lemma endswith_sep_no_sep (n : string) : no_sep n = true → endswith_sep n = false.
Proof.
  induction n as [|c n IH]; [done|]. cbn -[Ascii.eqb]. unfold posixpath.sep.
  intros [Hc Hn]%andb_true_iff. apply negb_true_iff in Hc.
  destruct n; [done|]. by apply IH.
Qed.

(** A file name joined to a directory never ends in a separator. *)
Lemma join_filename_not_dir (directory n : string) :
  is_filename n = true → endswith_sep (posixpath.join directory n) = false.
Proof.
  unfold is_filename. intros [[[Hsep Hne]%andb_true_iff _]%andb_true_iff _]%andb_true_iff.
  apply negb_true_iff, String.eqb_neq in Hne.
  unfold posixpath.join. rewrite (no_sep_prefix_slash n Hsep).
  destruct (_ || _).
  - rewrite endswith_sep_app by done. by apply endswith_sep_no_sep.
  - rewrite !endswith_sep_app; [by apply endswith_sep_no_sep|done|by destruct n].
Qed.

Lemma append_empty_r (a : string) : a +:+ "" = a.
Proof.
  induction a as [|c a IH]; [done|].
  change (String c a +:+ "") with (String c (a +:+ "")). by rewrite IH.
Qed.

Lemma join_empty_is_dir (directory : string) :
  directory ≠ "" → endswith_sep (posixpath.join directory "") = true.
Proof.
  intros Hd. unfold posixpath.join.
  change (startswith "" "/") with false. cbv iota.
  rewrite (proj2 (String.eqb_neq directory "") Hd).
  change (false || endswith_sep directory) with (endswith_sep directory).
  destruct (endswith_sep directory) eqn:He.
  - by rewrite append_empty_r.
  - by rewrite endswith_sep_app.
Qed.

Lemma safe_join_empty (directory : string) :
  safe_join directory "" =
    Some (posixpath.join (root_of directory) "").
Proof. done. Qed.

(** *** Normalisation never leaves [..] behind a file name *)

Lemma rev_replicate {A} (k : nat) (x : A) : rev (replicate k x) = replicate k x.
Proof.
  induction k as [|k IH]; [done|]. simpl. rewrite IH.
  clear IH. induction k as [|k IH]; [done|]. simpl. by rewrite IH.
Qed.

Lemma is_filename_intro (c : string) :
  no_sep c = true → c ≠ "" → c ≠ "." → c ≠ ".." → is_filename c = true.
Proof.
  intros Hsep H1 H2 H3. unfold is_filename. rewrite Hsep.
  by rewrite (proj2 (String.eqb_neq _ _) H1), (proj2 (String.eqb_neq _ _) H2),
    (proj2 (String.eqb_neq _ _) H3).
Qed.

Lemma is_filename_not_dotdot (c : string) : is_filename c = true → c ≠ "..".
Proof. by intros H ->. Qed.

Lemma is_filename_nonempty (c : string) : is_filename c = true → c ≠ "".
Proof. by intros H ->. Qed.

(** The stack of the loop is a run of file names on top of a run of
    [..], and stays so. *)
Lemma normpath_loop_shape (comps : list string) :
  Forall (λ c, no_sep c = true) comps →
  ∀ (tops : list string) (k : nat),
    Forall (λ c, is_filename c = true) tops →
    ∃ (tops' : list string) (k' : nat),
      Forall (λ c, is_filename c = true) tops' ∧
      posixpath.normpath_loop 0 comps (tops ++ replicate k "..")%list
        = (replicate k' ".." ++ tops')%list.
Proof.
  induction 1 as [|comp comps Hsep _ IH]; intros tops k Htops.
  - exists (rev tops), k. split.
    + by apply Forall_rev.
    + simpl. by rewrite rev_app_distr, rev_replicate.
  - cbn [posixpath.normpath_loop]. case_bool_decide as Hskip; [by apply IH|].
    destruct (decide (comp = "..")) as [->|Hdd].
    + assert (bool_decide (".." ≠ "..") = false) as -> by done.
      cbn [orb andb Nat.eqb].
      destruct tops as [|t tops].
      * destruct k as [|k]; simpl.
        -- apply (IH [] 1). constructor.
        -- apply (IH [] (S (S k))). constructor.
      * inversion Htops as [|? ? Ht Htops']; subst. simpl.
        rewrite bool_decide_eq_false_2
          by (intros [= ->]; by apply is_filename_not_dotdot in Ht).
        by apply IH.
    + rewrite bool_decide_eq_true_2 by done. simpl.
      apply (IH (comp :: tops) k). constructor; [|done].
      apply is_filename_intro; [done|naive_solver..].
Qed.

Lemma join_comps_dotdot (l : list string) :
  posixpath.join_comps (".." :: l) = ".."
  ∨ startswith (posixpath.join_comps (".." :: l)) "../" = true.
Proof.
  destruct l as [|c l]; [by left|right].
  change (posixpath.join_comps (".." :: c :: l))
    with (String "." (String "." (String "/" (posixpath.join_comps (c :: l))))).
  cbn -[posixpath.join_comps]. by destruct (posixpath.join_comps (c :: l)).
Qed.

Lemma join_comps_nonempty (c : string) (l : list string) :
  c ≠ "" → posixpath.join_comps (c :: l) ≠ "".
Proof. destruct c, l; done. Qed.

(** A relative path normalises to [.], to a path that starts with a
    [..] component, or to a chain of file names. *)
Lemma normpath_relative (path : string) :
  path ≠ "" → startswith path "/" = false →
  stays_inside (posixpath.normpath path)
  ∨ posixpath.normpath path = ".."
  ∨ startswith (posixpath.normpath path) "../" = true.
Proof.
  intros Hne Hrel. unfold posixpath.normpath, posixpath.initial_slashes.
  rewrite (proj2 (String.eqb_neq _ _) Hne), Hrel.
  destruct (normpath_loop_shape (posixpath.split path)) with (tops := @nil string) (k := 0)
    as (tops & k & Htops & Hloop).
  { apply List.Forall_forall. intros c Hc%list_elem_of_In.
    by apply (split_no_sep path). }
  { constructor. }
  simpl in Hloop. rewrite Hloop. cbn [replicate String.concat].
  change ("" +:+ ?x) with x.
  destruct k as [|k].
  - destruct tops as [|t tops]; [left; right; by left|].
    inversion Htops as [|? ? Ht _]; subst.
    pose proof (join_comps_nonempty t tops (is_filename_nonempty t Ht)) as Hj.
    simpl app. rewrite (proj2 (String.eqb_neq _ _) Hj).
    left. right. right. by exists (t :: tops).
  - right.
    change (replicate (S k) ".." ++ tops)%list
      with (".." :: (replicate k ".." ++ tops)%list).
    pose proof (join_comps_nonempty ".." (replicate k ".." ++ tops)%list) as Hj.
    rewrite (proj2 (String.eqb_neq _ _) (Hj ltac:(done))).
    apply join_comps_dotdot.
Qed.

(** An absolute path normalises to an absolute path. *)
Lemma normpath_absolute (path : string) :
  startswith path "/" = true → startswith (posixpath.normpath path) "/" = true.
Proof.
  intros Habs. unfold posixpath.normpath, posixpath.initial_slashes.
  rewrite Habs. destruct path as [|c path]; [done|].
  change (String.eqb (String c path) "") with false. cbv iota.
  destruct (_ && _);
    cbn -[posixpath.join_comps posixpath.normpath_loop posixpath.split];
    by destruct (posixpath.join_comps _).
Qed.

(** An absolute path is refused. *)
Lemma safe_join_refuses_absolute (directory path : string) :
  startswith path "/" = true → safe_join directory path = None.
Proof.
  intros Habs. unfold safe_join.
  destruct path as [|c path]; [done|]. cbn [String.eqb negb].
  by rewrite (normpath_absolute _ Habs).
Qed.

(** What [safe_join] accepts stays inside the directory. *)
Lemma safe_join_stays_inside (directory path joined : string) :
  safe_join directory path = Some joined →
  ∃ rel, stays_inside rel ∧ joined = posixpath.join (root_of directory) rel.
Proof.
  unfold safe_join. destruct (String.eqb path "") eqn:Hp.
  - apply String.eqb_eq in Hp as ->. intros [= <-]. exists "". split; [by left|done].
  - apply String.eqb_neq in Hp. cbn [negb].
    destruct (startswith path "/") eqn:Habs.
    + by rewrite (normpath_absolute path Habs).
    + destruct (normpath_relative path Hp Habs) as [Hin|[Hdd|Hdd]].
      * destruct (_ || _); [done|]. intros [= <-]. eauto.
      * rewrite Hdd. by rewrite orb_true_r.
      * rewrite Hdd. by rewrite orb_true_r.
Qed.

Section SendFromDirectory.

Context {G : Type}.
Variable fs : filesystem.

Lemma root_of_nonempty (directory : string) : root_of directory ≠ "".
Proof.
  unfold root_of. destruct (String.eqb directory "") eqn:He; [done|].
  by apply String.eqb_neq.
Qed.

(** Sending the name of a path either fails or sends the entry of
    that name in the directory. *)
Lemma send_from_directory_name (directory p : string) (a : bool) (resp : Response G) :
  send_from_directory fs directory (Path_name p) a = Ok resp →
  is_filename (Path_name p) = true ∧
  ∃ content,
    fs (posixpath.join (root_of directory) (Path_name p)) = Some (Regular content) ∧
    resp = send_file (posixpath.join (root_of directory) (Path_name p)) content a.
Proof.
  unfold send_from_directory.
  destruct (Path_name_component p) as [->|(Hsep & Hne & Hdot)].
  - rewrite safe_join_empty. unfold stat.
    rewrite join_empty_is_dir by apply root_of_nonempty.
    by repeat case_match.
  - rewrite safe_join_component by done.
    destruct (String.eqb (Path_name p) "..") eqn:Hdd; [done|].
    assert (is_filename (Path_name p) = true) as Hfile.
    { unfold is_filename. rewrite Hsep, Hdd.
      by rewrite (proj2 (String.eqb_neq _ _) Hne), (proj2 (String.eqb_neq _ _) Hdot). }
    unfold stat. rewrite join_filename_not_dir by done.
    destruct (fs _) as [[content| |]|] eqn:Hfs; try done.
    intros [= <-]. eauto.
Qed.

(** What escapes the directory is not found. *)
Lemma send_from_directory_refused (directory path : string) (a : bool) :
  safe_join directory path = None →
  send_from_directory (G:=G) fs directory path a = Raise NotFound.
Proof. unfold send_from_directory. by intros ->. Qed.

(** Whatever path is requested, a file that is sent lies inside the
    directory. *)
Lemma send_from_directory_inside (directory path : string) (a : bool) (resp : Response G) :
  send_from_directory fs directory path a = Ok resp →
  ∃ rel content,
    stays_inside rel ∧
    resp = send_file (posixpath.join (root_of directory) rel) content a.
Proof.
  unfold send_from_directory.
  destruct (safe_join directory path) as [joined|] eqn:Hj; [|done].
  apply safe_join_stays_inside in Hj as (rel & Hrel & ->).
  destruct (stat fs _) as [[content| |]|]; try done.
  intros [= <-]. eauto.
Qed.

End SendFromDirectory.

(** ** Static media routes *)

Section StaticRouteProperties.

Context {G : Type}.
Variables GALLERY_PATH POSTERS_PATH UPLOADS_PATH SEGMENTS_PATH : string.
Variable fs : filesystem.

Lemma try_except_raise {A} (body handler : result A) (e : exn) :
  body = Raise e → try_except body handler = handler.
Proof. by intros ->. Qed.

Lemma send_from_directory_raises_Exception (directory path : string) (a : bool) (e : exn) :
  send_from_directory (G:=G) fs directory path a = Raise e → is_Exception e = true.
Proof.
  unfold send_from_directory. repeat case_match; by intros [= <-].
Qed.

(** C8. Whenever resolving the requested path under the root of a
    static media route (gallery, posters, uploads, segments) fails,
    whatever the failure, the route raises the error
    "resource not found", and no other; a path that [safe_join]
    refuses because it is absolute or climbs out of the root is such a
    failure. *)
Theorem static_routes_resource_not_found (path : string) :
  let not_found := Raise (ValueError "resource not found") in
  ((∀ e, send_from_directory (G:=G) fs GALLERY_PATH path false = Raise e →
         send_gallery_video (G:=G) GALLERY_PATH fs path = not_found) ∧
   (∀ e, send_from_directory (G:=G) fs POSTERS_PATH path false = Raise e →
         send_poster_image (G:=G) POSTERS_PATH fs path = not_found) ∧
   (∀ e, send_from_directory (G:=G) fs UPLOADS_PATH path false = Raise e →
         send_uploaded_video (G:=G) UPLOADS_PATH fs path = not_found) ∧
   (∀ e, send_from_directory (G:=G) fs SEGMENTS_PATH path true = Raise e →
         send_segment_file (G:=G) SEGMENTS_PATH fs path = not_found)) ∧
  ((safe_join GALLERY_PATH path = None →
      send_gallery_video (G:=G) GALLERY_PATH fs path = not_found) ∧
   (safe_join POSTERS_PATH path = None →
      send_poster_image (G:=G) POSTERS_PATH fs path = not_found) ∧
   (safe_join UPLOADS_PATH path = None →
      send_uploaded_video (G:=G) UPLOADS_PATH fs path = not_found) ∧
   (safe_join SEGMENTS_PATH path = None →
      send_segment_file (G:=G) SEGMENTS_PATH fs path = not_found)).
Proof.
  intros not_found. split.
  - repeat split; intros e He.
    1-3: by eapply try_except_raise.
    unfold send_segment_file. rewrite He.
    apply send_from_directory_raises_Exception in He. simpl. by rewrite He.
  - repeat split; intros Hj.
    1-3: by eapply try_except_raise, send_from_directory_refused.
    unfold send_segment_file.
    by rewrite send_from_directory_refused.
Qed.

(** X1. A static route that answers sends a file from inside its root:
    the file sent is the root joined with nothing, with [.] or with a
    chain of file names, none of them [..]. *)
Lemma static_routes_serve_inside_root (path : string) (resp : Response G) :
  (send_gallery_video GALLERY_PATH fs path = Ok resp →
     ∃ rel content, stays_inside rel ∧
       resp = send_file (posixpath.join (root_of GALLERY_PATH) rel) content false) ∧
  (send_poster_image POSTERS_PATH fs path = Ok resp →
     ∃ rel content, stays_inside rel ∧
       resp = send_file (posixpath.join (root_of POSTERS_PATH) rel) content false) ∧
  (send_uploaded_video UPLOADS_PATH fs path = Ok resp →
     ∃ rel content, stays_inside rel ∧
       resp = send_file (posixpath.join (root_of UPLOADS_PATH) rel) content false) ∧
  (send_segment_file SEGMENTS_PATH fs path = Ok resp →
     ∃ rel content, stays_inside rel ∧
       resp = send_file (posixpath.join (root_of SEGMENTS_PATH) rel) content true).
Proof.
  unfold send_gallery_video, send_poster_image, send_uploaded_video,
    send_segment_file, try_except, try_except_Exception.
  repeat split; intros Hsend;
    apply (send_from_directory_inside fs _ path); revert Hsend;
    (destruct (send_from_directory fs _ path _) as [r|e]; simpl; [done|]);
    try destruct (is_Exception e); done.
Qed.

End StaticRouteProperties.

(** ** The registry *)

(** A registry call other than [Start] creates no entry. *)
Local Ltac no_new_entry :=
  split; [by left | by intros [?|?]].

Lemma step_lookup_is_Some (reg : Registry.t) (e : Registry.event) (sid : pyval) :
  is_Some (Registry.step reg e !! sid) ↔ is_Some (reg !! sid) ∨ e = Registry.Start sid.
Proof.
  assert (∀ (k : pyval) st, is_Some (reg !! k) →
            (is_Some (<[k := st]> reg !! sid) ↔ is_Some (reg !! sid))) as Hins.
  { intros k st Hk. rewrite lookup_insert.
    case_decide; subst; [split; [done|by eexists]|done]. }
  destruct e as [k|k|k path|k msg]; simpl;
    unfold Registry.start, Registry.advance, Registry.complete, Registry.fail.
  - destruct (reg !! k) eqn:Hk; simpl.
    + split; [by left|]. intros [?|[= ->]]; [done|by rewrite Hk].
    + rewrite lookup_insert. case_decide as Hd.
      * subst. split; [by right|done].
      * split; [by left|]. intros [?|[= ->]]; done.
  - destruct (reg !! k) eqn:Hk; [|no_new_entry].
    case_bool_decide; [|no_new_entry].
    rewrite Hins by (by rewrite Hk). no_new_entry.
  - destruct (reg !! k) eqn:Hk; [|no_new_entry].
    destruct (is_active _); [|no_new_entry].
    rewrite Hins by (by rewrite Hk). no_new_entry.
  - destruct (reg !! k) eqn:Hk; [|no_new_entry].
    destruct (is_active _); [|no_new_entry].
    rewrite Hins by (by rewrite Hk). no_new_entry.
Qed.

Lemma foldl_step_lookup_is_Some (history : list Registry.event) (reg : Registry.t) (sid : pyval) :
  is_Some (foldl Registry.step reg history !! sid)
    ↔ is_Some (reg !! sid) ∨ Registry.Start sid ∈ history.
Proof.
  revert reg. induction history as [|e history IH]; intros reg; simpl.
  - rewrite elem_of_nil. split; [by left|by intros [?|?]].
  - rewrite IH, step_lookup_is_Some, elem_of_cons.
    split; [intros [[?|Heq]|?]|intros [?|[Heq|?]]]; subst; auto.
Qed.

(** A session has a status exactly when it was started. *)
Lemma after_lookup_is_Some (history : list Registry.event) (sid : pyval) :
  is_Some (Registry.after history !! sid) ↔ Registry.Start sid ∈ history.
Proof.
  unfold Registry.after. rewrite foldl_step_lookup_is_Some, lookup_empty.
  split; [intros [[? [=]]|?]; done|by right].
Qed.

Lemma step_path_only_when_complete (reg : Registry.t) (e : Registry.event) :
  path_only_when_complete reg → path_only_when_complete (Registry.step reg e).
Proof.
  intros Hreg sid st.
  destruct e as [k|k|k path|k msg]; simpl;
    unfold Registry.start, Registry.advance, Registry.complete, Registry.fail;
    destruct (reg !! k) eqn:Hk; simpl; try apply Hreg;
    try (destruct (bool_decide _) || destruct (is_active _)); try apply Hreg;
    rewrite lookup_insert; case_decide; try apply Hreg;
    intros [= <-]; simpl; by intros [? [=]] || done.
Qed.

Lemma after_path_only_when_complete (history : list Registry.event) :
  path_only_when_complete (Registry.after history).
Proof.
  unfold Registry.after.
  assert (path_only_when_complete ∅) as Hempty by (by intros sid st).
  revert Hempty. generalize (∅ : Registry.t).
  induction history as [|e history IH]; intros reg Hreg; [done|].
  simpl. by apply IH, step_path_only_when_complete.
Qed.

(** ** The collaborators' dicts *)

Lemma to_dict_state (st : PropagationStatus) :
  dict_get (to_dict st) "state" = PyStr (state_name (status_state st)).
Proof. done. Qed.

Lemma to_dict_result_path (st : PropagationStatus) :
  dict_get (to_dict st) "result_path" = from_option PyStr PyNone (result_path st).
Proof. by destruct st as [s [p|] [e|]]. Qed.

Lemma to_dict_error (st : PropagationStatus) :
  dict_get (to_dict st) "error" = from_option PyStr PyNone (error st).
Proof. by destruct st as [s [p|] [e|]]. Qed.

(** ** The background routes *)

Section RegistryRouteProperties.

Context {P I : Type}.
Variable SEGMENTS_PATH : string.
Variable fs : filesystem.
Variable launch : PropagateInVideoRequest → P → P.

Local Abbreviation Resp := (Response (@generator I)).
Local Abbreviation API := (@InferenceAPI P).

Lemma get_propagation_status_known (sid : string) (api : API) (st : PropagationStatus) :
  sessions api !! PyStr sid = Some st →
  get_propagation_status sid api = (Ok (to_dict st), api).
Proof.
  intros Hst. unfold get_propagation_status, Registry.get_status. by rewrite Hst.
Qed.

Lemma get_propagation_status_unknown (sid : string) (api : API) :
  sessions api !! PyStr sid = None →
  get_propagation_status sid api = (Raise NotFound, api).
Proof.
  intros Hst. unfold get_propagation_status, Registry.get_status. by rewrite Hst.
Qed.

(** The download route on a session that has a status. *)
Lemma download_segments_known (sid : string) (api : API) (st : PropagationStatus) :
  sessions api !! PyStr sid = Some st →
  download_segments (I:=I) SEGMENTS_PATH fs sid api =
    match result_path st with
    | None => (Ok (make_response (Text "not ready") 404), api)
    | Some p =>
        if String.eqb p "" then (Ok (make_response (Text "not ready") 404), api)
        else (send_from_directory fs SEGMENTS_PATH (Path_name p) true, api)
    end.
Proof.
  intros Hst. unfold download_segments, mbind, M_bind.
  rewrite (get_propagation_status_known sid api st Hst), to_dict_result_path.
  destruct (result_path st) as [p|]; [|done]. cbn -[String.eqb].
  destruct (String.eqb p ""); [done|]. cbn.
  by destruct (send_from_directory _ _ _ _).
Qed.

(** While a job is pending or running, and after it failed, the
    download is not ready. *)
Lemma download_segments_not_ready_unless_complete
    (history : list Registry.event) (p : P) (sid : string) (st : PropagationStatus) :
  let api := {| sessions := Registry.after history; predictor := p |} in
  Registry.after history !! PyStr sid = Some st →
  status_state st ≠ COMPLETE →
  download_segments (I:=I) SEGMENTS_PATH fs sid api
    = (Ok (make_response (Text "not ready") 404), api).
Proof.
  intros api Hst Hstate.
  rewrite (download_segments_known sid api st Hst).
  destruct (result_path st) as [path|] eqn:Hpath; [|done].
  destruct Hstate.
  apply (after_path_only_when_complete history (PyStr sid) st Hst).
  by rewrite Hpath.
Qed.

(** C1 (as amended). For every POST /background_propagate request
    that carries a session_id, the request is handed to the inference
    API (which registers the job and, when it is new, launches it with
    that request) and the "started" field of the JSON response body is
    the constant true, with status 200: it is true when a new PENDING
    entry was created and equally when the session already had an
    entry. *)
Theorem background_propagate_started_is_true
    (data : gmap string pyval) (sid : pyval) (api : API) :
  data !! "session_id" = Some sid →
  background_propagate (I:=I) launch data api =
    (Ok (make_response (json_dumps [("started", PyBool true)]) 200),
     {| sessions := snd (Registry.start sid (sessions api));
        predictor :=
          if fst (Registry.start sid (sessions api))
          then launch {| type := "propagate_in_video"; session_id := sid;
                         start_frame_index :=
                           get data "start_frame_index" (PyInt 0) |}
                 (predictor api)
          else predictor api |})
  ∧ started_field (fst (background_propagate (I:=I) launch data api)) = PyBool true.
Proof.
  intros Hsid.
  assert (background_propagate (I:=I) launch data api =
    (Ok (make_response (json_dumps [("started", PyBool true)]) 200),
     {| sessions := snd (Registry.start sid (sessions api));
        predictor :=
          if fst (Registry.start sid (sessions api))
          then launch {| type := "propagate_in_video"; session_id := sid;
                         start_frame_index :=
                           get data "start_frame_index" (PyInt 0) |}
                 (predictor api)
          else predictor api |})) as Heq.
  { unfold background_propagate, mbind, M_bind, getitem. rewrite Hsid. simpl.
    unfold start_propagate_background. simpl.
    by destruct (Registry.start sid (sessions api)). }
  by rewrite Heq.
Qed.


(** C3. Whatever result path a session's status stores, the download
    route hands only the file name of that path to the lookup under
    the segments root: a file that it serves is the entry of that name
    directly in the root, the name being a single component that is
    neither empty, [.] nor [..]; for a result path without such a name
    no file is served. *)
Theorem download_segments_serves_inside_root
    (sid : string) (api api' : API) (resp : Resp) :
  download_segments SEGMENTS_PATH fs sid api = (Ok resp, api') →
  api' = api ∧
  (resp = make_response (Text "not ready") 404 ∨
   ∃ st p content,
     sessions api !! PyStr sid = Some st ∧ result_path st = Some p ∧
     is_filename (Path_name p) = true ∧
     fs (posixpath.join (root_of SEGMENTS_PATH) (Path_name p)) = Some (Regular content) ∧
     resp = send_file (posixpath.join (root_of SEGMENTS_PATH) (Path_name p))
              content true).
Proof.
  destruct (sessions api !! PyStr sid) as [st|] eqn:Hst.
  - rewrite (download_segments_known sid api st Hst).
    destruct (result_path st) as [p|] eqn:Hp; [|intros [= <- <-]; auto].
    destruct (String.eqb p ""); [intros [= <- <-]; auto|].
    intros [= Hsend <-]. split; [done|]. right.
    apply send_from_directory_name in Hsend as (Hname & content & Hfs & ->).
    eauto 10.
  - unfold download_segments, mbind, M_bind.
    by rewrite (get_propagation_status_unknown sid api Hst).
Qed.

(** C4. For a registry reached by any history of registry calls: GET
    /propagate_status fails with NotFound for a session that was never
    started, and for a started session answers 200 with the serialised
    status of that session, which carries the state and, when set, the
    result path and the error. *)
Theorem propagate_status_not_found_or_serialized
    (history : list Registry.event) (p : P) (sid : string) :
  let api := {| sessions := Registry.after history; predictor := p |} in
  (Registry.Start (PyStr sid) ∉ history →
     propagate_status (I:=I) sid api = (Raise NotFound, api))
  ∧ (Registry.Start (PyStr sid) ∈ history →
     ∃ st, Registry.after history !! PyStr sid = Some st ∧
           propagate_status (I:=I) sid api =
             (Ok (make_response (json_dumps (to_dict st)) 200), api) ∧
           dict_get (to_dict st) "state" = PyStr (state_name (status_state st)) ∧
           dict_get (to_dict st) "result_path"
             = from_option PyStr PyNone (result_path st) ∧
           dict_get (to_dict st) "error" = from_option PyStr PyNone (error st)).
Proof.
  intros api. split; intros Hstart.
  - unfold propagate_status, mbind, M_bind.
    rewrite get_propagation_status_unknown; [done|].
    apply eq_None_not_Some. unfold api; simpl. by rewrite after_lookup_is_Some.
  - apply after_lookup_is_Some in Hstart as [st Hst]. exists st.
    split; [done|]. split.
    + unfold propagate_status, mbind, M_bind.
      by rewrite (get_propagation_status_known sid api st).
    + auto using to_dict_state, to_dict_result_path, to_dict_error.
Qed.

End RegistryRouteProperties.

(** ** The streaming route *)

Section StreamingProperties.

Context {P Result I : Type}.
Variable to_json : Result → string.
Variable api_propagate_in_video : PropagateInVideoRequest → I.
Variable iter_next : I → P → result (option (Result * I)) * P.
Variable launch : PropagateInVideoRequest → P → P.

Local Abbreviation API := (@InferenceAPI P).
Local Abbreviation gen_iter := (gen_iter api_propagate_in_video).
Local Abbreviation gen_next := (gen_next to_json api_propagate_in_video iter_next).
Local Abbreviation drain := (drain to_json api_propagate_in_video iter_next).
Local Abbreviation yields := (yields iter_next).
Local Abbreviation chunk_of b r :=
  (MultipartResponseBuilder.get_message (frame_chunk to_json b r)).

Lemma gen_next_iter (g : generator) (it : I) :
  gen_iter g = Some it → gen_next g = gen_loop to_json iter_next (gen_boundary g) it.
Proof. destruct g; simpl; by intros [= <-]. Qed.

(** One [next] pulls at most once from the collaborator, and what it
    yields is the chunk of the item pulled. *)
Lemma gen_next_yield (g g' : generator) (api api' : API) (c : string) :
  gen_next g api = (Ok (Some (c, g')), api') →
  ∃ it r it',
    gen_iter g = Some it ∧
    iter_next it (predictor api) = (Ok (Some (r, it')), predictor api') ∧
    c = chunk_of (gen_boundary g) r ∧
    g' = gen_suspended (gen_boundary g) it' ∧
    sessions api' = sessions api.
Proof.
  destruct g as [b sid sfi|b it|]; simpl; [| |done].
  all: unfold gen_loop;
    destruct (iter_next _ (predictor api)) as [[[[r it']|]|e] p1] eqn:Hnext;
    intros [= <- <- <-]; eauto 10.
Qed.

Lemma gen_next_sessions (g : generator) (api : API) :
  sessions (snd (gen_next g api)) = sessions api.
Proof.
  destruct g as [b sid sfi|b it|]; simpl; [| |done].
  all: unfold gen_loop;
    by destruct (iter_next _ (predictor api)) as [[[[r it']|]|e] p1].
Qed.

Lemma drain_sessions (n : nat) (g : generator) (api : API) :
  sessions (snd (drain n g api)) = sessions api.
Proof.
  revert g api. induction n as [|n IH]; intros g api; [done|]. simpl.
  pose proof (gen_next_sessions g api) as Hs.
  destruct (gen_next g api) as [[[[c g']|]|e] api1]; simpl in *; try done.
  specialize (IH g' api1).
  destruct (drain n g' api1) as [[cs r] api2]. simpl in *. congruence.
Qed.

(** After [k] pulls the transport holds the chunks of the first [k]
    items and the collaborator has been advanced by exactly those. *)
Lemma drain_prefix (rs : list Result) (p' : P) :
  ∀ (g : generator) (it : I) (api : API) (k : nat),
    gen_iter g = Some it →
    yields it (predictor api) rs p' →
    (k ≤ List.length rs)%nat →
    ∃ g_k it_k api_k,
      drain k g api = (map (λ r, chunk_of (gen_boundary g) r) (take k rs), Ok g_k, api_k) ∧
      gen_iter g_k = Some it_k ∧
      gen_boundary g_k = gen_boundary g ∧
      yields it_k (predictor api_k) (drop k rs) p' ∧
      sessions api_k = sessions api.
Proof.
  induction rs as [|r rs IH]; intros g it api k Hit Hy Hk.
  - assert (k = 0) as -> by (simpl in Hk; lia). simpl. eauto 10.
  - destruct k as [|k]; [simpl; eauto 10|].
    inversion Hy as [|? ? ? it' p1 ? ? Hnext Hy']; subst.
    simpl. rewrite (gen_next_iter g it Hit). unfold gen_loop. rewrite Hnext.
    destruct (IH (gen_suspended (gen_boundary g) it') it'
                {| sessions := sessions api; predictor := p1 |} k)
      as (g_k & it_k & api_k & -> & ? & ? & ? & ?); [done|done|simpl in Hk; lia|].
    eauto 10.
Qed.

(** Pulling beyond the last item ends the stream. *)
Lemma drain_all (rs : list Result) (p' : P) :
  ∀ (g : generator) (it : I) (api : API) (n : nat),
    gen_iter g = Some it →
    yields it (predictor api) rs p' →
    (List.length rs < n)%nat →
    drain n g api =
      (map (λ r, chunk_of (gen_boundary g) r) rs, Ok gen_finished,
       {| sessions := sessions api; predictor := p' |}).
Proof.
  induction rs as [|r rs IH]; intros g it api n Hit Hy Hn;
    (destruct n as [|n]; [simpl in Hn; lia|]);
    inversion Hy as [? ? ? Hnext|? ? ? it' p1 ? ? Hnext Hy']; subst;
    simpl; rewrite (gen_next_iter g it Hit); unfold gen_loop; rewrite Hnext.
  - done.
  - by rewrite (IH (gen_suspended (gen_boundary g) it') it'
                  {| sessions := sessions api; predictor := p1 |} n)
      by (done || simpl in *; lia).
Qed.

(** Every chunk drained is the chunk of some item, under the
    generator's boundary. *)
Lemma drain_chunks (n : nat) (g : generator) (api : API) :
  Forall (λ c, ∃ res, c = chunk_of (gen_boundary g) res) (drain n g api).1.1.
Proof.
  revert g api. induction n as [|n IH]; intros g api; simpl; [constructor|].
  destruct (gen_next g api) as [[[[c g1]|]|e] api1] eqn:Hnext;
    simpl; try constructor.
  - specialize (IH g1 api1).
    destruct (drain n g1 api1) as [[cs1 r1] api2]. simpl in *.
    apply gen_next_yield in Hnext as (it & res & it' & _ & _ & -> & -> & _).
    constructor; eauto.
Qed.

Lemma propagate_in_video_with_session
    (data : gmap string pyval) (sid : pyval) (api : API) :
  data !! "session_id" = Some sid →
  propagate_in_video (I:=I) data api =
    (Ok (streaming
           (gen_created "frame" sid (get data "start_frame_index" (PyInt 0)))
           "multipart/x-savi-stream; boundary=frame"), api).
Proof.
  intros Hsid. unfold propagate_in_video, mbind, M_bind, getitem.
  by rewrite Hsid.
Qed.

(** C5. When the inference collaborator yields the finite sequence
    [rs] for the request, the generator of the streaming route emits
    exactly one chunk per item, in the order of the items, each
    carrying the JSON of its item as body; after [k] pulls exactly
    [k] items have been taken from the collaborator, the rest still
    being ahead of it; and a pull past the last item ends the
    stream. *)
Theorem stream_one_chunk_per_item
    (data : gmap string pyval) (sid : pyval) (api : API)
    (rs : list Result) (p' : P) :
  data !! "session_id" = Some sid →
  yields
    (api_propagate_in_video
       {| type := "propagate_in_video"; session_id := sid;
          start_frame_index := get data "start_frame_index" (PyInt 0) |})
    (predictor api) rs p' →
  ∃ frame,
    propagate_in_video data api =
      (Ok (streaming frame "multipart/x-savi-stream; boundary=frame"), api) ∧
    (∀ k, (k ≤ List.length rs)%nat →
       ∃ g_k it_k api_k,
         drain k frame api = (map (λ r, chunk_of "frame" r) (take k rs), Ok g_k, api_k) ∧
         gen_iter g_k = Some it_k ∧
         yields it_k (predictor api_k) (drop k rs) p') ∧
    (∀ n, (List.length rs < n)%nat →
       drain n frame api =
         (map (λ r, chunk_of "frame" r) rs, Ok gen_finished,
          {| sessions := sessions api; predictor := p' |})) ∧
    map (λ r, MultipartResponseBuilder.body (frame_chunk to_json "frame" r)) rs
      = map to_json rs.
Proof.
  intros Hsid Hy. eexists. split; [by apply propagate_in_video_with_session|].
  split; [|split; [|done]].
  - intros k Hk.
    destruct (drain_prefix rs p'
                (gen_created "frame" sid (get data "start_frame_index" (PyInt 0)))
                _ api k eq_refl Hy Hk)
      as (g_k & it_k & api_k & Hd & ? & ? & ? & ?).
    rewrite Hd. eauto 10.
  - intros n Hn.
    by rewrite (drain_all rs p'
                  (gen_created "frame" sid (get data "start_frame_index" (PyInt 0)))
                  _ api n eq_refl Hy Hn).
Qed.

(** C6. Every chunk the streaming generator emits is the message of a
    chunk with exactly four headers: the content type
    application/json with charset utf-8, the current frame marker
    (-1, unknown), the total frame marker (-1, unknown) and the mask
    type tag. *)
Theorem stream_chunk_required_headers
    (g g' : generator) (api api' : API) (c : string) :
  gen_next g api = (Ok (Some (c, g')), api') →
  ∃ m,
    c = MultipartResponseBuilder.get_message m ∧
    map fst (MultipartResponseBuilder.headers m)
      = ["Content-Type"; "Frame-Current"; "Frame-Total"; "Mask-Type"] ∧
    MultipartResponseBuilder.header (MultipartResponseBuilder.headers m) "Content-Type"
      = Some "application/json; charset=utf-8" ∧
    MultipartResponseBuilder.header (MultipartResponseBuilder.headers m) "Frame-Current"
      = Some "-1" ∧
    MultipartResponseBuilder.header (MultipartResponseBuilder.headers m) "Frame-Total"
      = Some "-1" ∧
    is_Some (MultipartResponseBuilder.header (MultipartResponseBuilder.headers m) "Mask-Type").
Proof.
  intros (it & r & it' & _ & _ & -> & _ & _)%gen_next_yield.
  exists (frame_chunk to_json (gen_boundary g) r). by repeat split.
Qed.

(** C7. Handling POST /propagate_in_video leaves the state of the
    inference API as it is, and however far the transport drains the
    stream, the registry is the one before: no entry is created or
    changed. *)
Theorem streaming_leaves_registry_unchanged
    (data : gmap string pyval) (api : API) :
  snd (propagate_in_video (I:=I) data api) = api ∧
  ∀ (n : nat) (g : generator) (api0 : API),
    sessions (snd (drain n g api0)) = sessions api0.
Proof.
  split; [|apply drain_sessions].
  unfold propagate_in_video, mbind, M_bind, getitem.
  by destruct (data !! "session_id").
Qed.

(** A new session gets its PENDING entry and its job is launched with
    the request given. *)
Lemma start_propagate_background_new (request : PropagateInVideoRequest) (api : API) :
  sessions api !! session_id request = None →
  start_propagate_background launch request api =
    (Ok true,
     {| sessions := <[session_id request := Registry.pending]> (sessions api);
        predictor := launch request (predictor api) |}).
Proof.
  intros Hnew. unfold start_propagate_background, Registry.start. by rewrite Hnew.
Qed.

(** What the background route does with the request it builds. *)
Lemma background_propagate_with_session
    (data : gmap string pyval) (sid : pyval) (api : API) :
  data !! "session_id" = Some sid →
  background_propagate (I:=I) launch data api =
    (Ok (make_response (json_dumps [("started", PyBool true)]) 200),
     snd (start_propagate_background launch
            {| type := "propagate_in_video"; session_id := sid;
               start_frame_index := get data "start_frame_index" (PyInt 0) |}
            api)).
Proof.
  intros Hsid. unfold background_propagate, mbind, M_bind, getitem.
  rewrite Hsid. simpl. unfold start_propagate_background. simpl.
  by destruct (Registry.start sid (sessions api)).
Qed.

(** C9. When the body of POST /propagate_in_video or POST
    /background_propagate omits start_frame_index, the request handed
    to the inference API has start_frame_index 0: the streaming
    generator asks the collaborator for the results of that request,
    and the background route starts that request, so that for a new
    session the job launched is the one for start frame 0. *)
Theorem start_frame_index_defaults_to_zero
    (data : gmap string pyval) (sid : pyval) (api : API) :
  data !! "session_id" = Some sid →
  data !! "start_frame_index" = None →
  let request :=
    {| type := "propagate_in_video"; session_id := sid;
       start_frame_index := PyInt 0 |} in
  (∃ frame mimetype,
     propagate_in_video data api = (Ok (streaming frame mimetype), api) ∧
     gen_next frame = gen_loop to_json iter_next "frame" (api_propagate_in_video request))
  ∧ background_propagate (I:=I) launch data api =
      (Ok (make_response (json_dumps [("started", PyBool true)]) 200),
       snd (start_propagate_background launch request api))
  ∧ (sessions api !! sid = None →
     background_propagate (I:=I) launch data api =
       (Ok (make_response (json_dumps [("started", PyBool true)]) 200),
        {| sessions := <[sid := Registry.pending]> (sessions api);
           predictor := launch request (predictor api) |})).
Proof.
  intros Hsid Hsfi request.
  assert (get data "start_frame_index" (PyInt 0) = PyInt 0) as Hget
    by (unfold get; by rewrite Hsfi).
  pose proof (background_propagate_with_session data sid api Hsid) as Hbg.
  rewrite Hget in Hbg. fold request in Hbg.
  split; [|split].
  - eexists _, _. split; [by apply propagate_in_video_with_session|].
    by rewrite Hget.
  - exact Hbg.
  - intros Hnew. rewrite Hbg.
    by rewrite (start_propagate_background_new request api Hnew).
Qed.

(** C10. In every chunk of every stream, whatever the item, its
    position or the number of items, Frame-Current and Frame-Total
    are the text -1 and Mask-Type is the text RLE[]: the headers of a
    chunk do not depend on the item it carries. *)
Theorem stream_progress_headers_constant
    (n : nat) (g : generator) (api api' : API)
    (cs : list string) (r : result generator) :
  drain n g api = (cs, r, api') →
  Forall (λ c, ∃ res m,
            m = frame_chunk to_json (gen_boundary g) res ∧
            c = MultipartResponseBuilder.get_message m ∧
            MultipartResponseBuilder.header (MultipartResponseBuilder.headers m)
              "Frame-Current" = Some "-1" ∧
            MultipartResponseBuilder.header (MultipartResponseBuilder.headers m)
              "Frame-Total" = Some "-1" ∧
            MultipartResponseBuilder.header (MultipartResponseBuilder.headers m)
              "Mask-Type" = Some "RLE[]") cs
  ∧ ∀ (b b' : string) (res res' : Result),
      MultipartResponseBuilder.headers (frame_chunk to_json b res)
        = MultipartResponseBuilder.headers (frame_chunk to_json b' res').
Proof.
  intros Hd. split; [|done].
  pose proof (drain_chunks n g api) as Hcs. rewrite Hd in Hcs. simpl in Hcs.
  eapply List.Forall_impl; [|exact Hcs].
  intros c [res ->]. by eexists _, _.
Qed.

End StreamingProperties.

(** ** The properties at the sample collaborators *)

Import SampleRuns.

(** C1, the claim as stated fails: the session s1 already has a running
    job, starting it again creates no entry and reports that no job was
    started, and the response still says that one was. *)
Lemma background_propagate_started_counterexample :
  (is_active <$> running !! PyStr "s1") = Some true ∧
  Registry.start (PyStr "s1") running = (false, running) ∧
  background_propagate (I:=list nat) SampleJobs.launch (Sample.body "s1")
    (SampleJobs.api running [request_s1])
    = (Ok started_true, SampleJobs.api running [request_s1]) ∧
  started_field (fst (background_propagate (I:=list nat) SampleJobs.launch
                        (Sample.body "s1") (SampleJobs.api running [request_s1])))
    ≠ PyBool (fst (Registry.start (PyStr "s1") running)).
Proof. by vm_compute. Qed.

Lemma background_propagate_started_is_true_witness :
  Sample.body "s1" !! "session_id" = Some (PyStr "s1") ∧
  background_propagate (I:=list nat) SampleJobs.launch (Sample.body "s1")
    (SampleJobs.api ∅ [])
    = (Ok started_true,
       {| sessions := snd (Registry.start (PyStr "s1") ∅);
          predictor := [request_s1] |}) ∧
  started_field (fst (background_propagate (I:=list nat) SampleJobs.launch
                        (Sample.body "s1") (SampleJobs.api ∅ []))) = PyBool true.
Proof.
  split; [reflexivity|].
  destruct (background_propagate_started_is_true (I:=list nat) SampleJobs.launch
              (Sample.body "s1") (PyStr "s1") (SampleJobs.api ∅ []) eq_refl)
    as [Hresp Hfield].
  split; [|exact Hfield].
  etransitivity; [exact Hresp|]. by vm_compute.
Defined.


Lemma download_segments_serves_inside_root_witness :
  download_segments (I:=list nat) "/data/segments" Sample.fs "s1" (Sample.api finished)
    = (Ok (send_file "/data/segments/s1.zip" "masks" true), Sample.api finished) ∧
  (Sample.api finished = Sample.api finished ∧
   ((send_file "/data/segments/s1.zip" "masks" true : Resp)
      = make_response (Text "not ready") 404 ∨
    ∃ st p content,
      sessions (Sample.api finished) !! PyStr "s1" = Some st ∧
      result_path st = Some p ∧
      is_filename (Path_name p) = true ∧
      Sample.fs (posixpath.join (root_of "/data/segments") (Path_name p))
        = Some (Regular content) ∧
      (send_file "/data/segments/s1.zip" "masks" true : Resp)
        = send_file (posixpath.join (root_of "/data/segments") (Path_name p))
            content true)).
Proof.
  split; [by vm_compute|].
  apply (download_segments_serves_inside_root "/data/segments" Sample.fs "s1"
           (Sample.api finished) (Sample.api finished)).
  by vm_compute.
Defined.

Lemma propagate_status_not_found_or_serialized_witness :
  (Registry.Start (PyStr "s2") ∉ [Registry.Start (PyStr "s1")]) ∧
  (Registry.Start (PyStr "s1") ∈ [Registry.Start (PyStr "s1")]) ∧
  propagate_status (I:=list nat) "s2" (Sample.api (Registry.after [Registry.Start (PyStr "s1")]))
    = (Raise NotFound, Sample.api (Registry.after [Registry.Start (PyStr "s1")])) ∧
  ∃ st, Registry.after [Registry.Start (PyStr "s1")] !! PyStr "s1" = Some st ∧
        propagate_status (I:=list nat) "s1"
          (Sample.api (Registry.after [Registry.Start (PyStr "s1")]))
          = (Ok (make_response (json_dumps (to_dict st)) 200),
             Sample.api (Registry.after [Registry.Start (PyStr "s1")])) ∧
        dict_get (to_dict st) "state" = PyStr (state_name (status_state st)) ∧
        dict_get (to_dict st) "result_path"
          = from_option PyStr PyNone (result_path st) ∧
        dict_get (to_dict st) "error" = from_option PyStr PyNone (error st).
Proof.
  assert (Registry.Start (PyStr "s2") ∉ [Registry.Start (PyStr "s1")]) as Hs2.
  { intros [=]%list_elem_of_singleton. }
  assert (Registry.Start (PyStr "s1") ∈ [Registry.Start (PyStr "s1")]) as Hs1.
  { apply list_elem_of_singleton. reflexivity. }
  split; [exact Hs2|]. split; [exact Hs1|]. split.
  - exact (proj1 (propagate_status_not_found_or_serialized (I:=list nat)
                    [Registry.Start (PyStr "s1")] 0 "s2") Hs2).
  - exact (proj2 (propagate_status_not_found_or_serialized (I:=list nat)
                    [Registry.Start (PyStr "s1")] 0 "s1") Hs1).
Defined.

Lemma sample_yields :
  yields Sample.iter_next (Sample.api_propagate_in_video request_s1) 0 [0; 1; 2] 3.
Proof. repeat (eapply yields_item; [reflexivity|]). by apply yields_done. Qed.

Lemma stream_one_chunk_per_item_witness :
  Sample.body "s1" !! "session_id" = Some (PyStr "s1") ∧
  yields Sample.iter_next
    (Sample.api_propagate_in_video
       {| type := "propagate_in_video"; session_id := PyStr "s1";
          start_frame_index := get (Sample.body "s1") "start_frame_index" (PyInt 0) |})
    (predictor (Sample.api ∅)) [0; 1; 2] 3 ∧
  ∃ frame,
    propagate_in_video (Sample.body "s1") (Sample.api ∅) =
      (Ok (streaming frame "multipart/x-savi-stream; boundary=frame"), Sample.api ∅) ∧
    (∀ k, (k ≤ List.length [0; 1; 2])%nat →
       ∃ g_k it_k api_k,
         pull k frame (Sample.api ∅)
           = (map chunk (take k [0; 1; 2]), Ok g_k, api_k) ∧
         gen_iter Sample.api_propagate_in_video g_k = Some it_k ∧
         yields Sample.iter_next it_k (predictor api_k) (drop k [0; 1; 2]) 3) ∧
    (∀ n, (List.length [0; 1; 2] < n)%nat →
       pull n frame (Sample.api ∅)
         = (map chunk [0; 1; 2], Ok gen_finished,
            {| sessions := sessions (Sample.api ∅); predictor := 3 |})) ∧
    map (λ r, MultipartResponseBuilder.body (frame_chunk Sample.to_json "frame" r))
      [0; 1; 2] = map Sample.to_json [0; 1; 2].
Proof.
  split; [reflexivity|]. split; [exact sample_yields|].
  apply (stream_one_chunk_per_item Sample.to_json Sample.api_propagate_in_video
           Sample.iter_next (Sample.body "s1") (PyStr "s1") (Sample.api ∅)
           [0; 1; 2] 3).
  - reflexivity.
  - exact sample_yields.
Defined.

Lemma stream_chunk_required_headers_witness :
  next fresh (Sample.api ∅)
    = (Ok (Some (chunk 0, gen_suspended "frame" [1; 2])),
       {| sessions := ∅; predictor := 1 |}) ∧
  ∃ m,
    chunk 0 = MultipartResponseBuilder.get_message m ∧
    map fst (MultipartResponseBuilder.headers m)
      = ["Content-Type"; "Frame-Current"; "Frame-Total"; "Mask-Type"] ∧
    MultipartResponseBuilder.header (MultipartResponseBuilder.headers m) "Content-Type"
      = Some "application/json; charset=utf-8" ∧
    MultipartResponseBuilder.header (MultipartResponseBuilder.headers m) "Frame-Current"
      = Some "-1" ∧
    MultipartResponseBuilder.header (MultipartResponseBuilder.headers m) "Frame-Total"
      = Some "-1" ∧
    is_Some (MultipartResponseBuilder.header (MultipartResponseBuilder.headers m) "Mask-Type").
Proof.
  split; [reflexivity|].
  apply (stream_chunk_required_headers Sample.to_json Sample.api_propagate_in_video
           Sample.iter_next fresh (gen_suspended "frame" [1; 2]) (Sample.api ∅)
           {| sessions := ∅; predictor := 1 |} (chunk 0)).
  reflexivity.
Defined.

Lemma static_routes_resource_not_found_witness :
  let not_found : result (Response ()) := Raise (ValueError "resource not found") in
  send_from_directory (G:=()) Sample.fs "/data/gallery" "missing.mp4" false = Raise NotFound ∧
  send_from_directory (G:=()) Sample.fs "/data/segments" "locked.zip" true
    = Raise PermissionError ∧
  safe_join "/data/gallery" "../../etc/passwd" = None ∧
  safe_join "/data/segments" "/etc/passwd" = None ∧
  send_gallery_video "/data/gallery" Sample.fs "missing.mp4" = not_found ∧
  send_segment_file "/data/segments" Sample.fs "locked.zip" = not_found ∧
  send_gallery_video "/data/gallery" Sample.fs "../../etc/passwd" = not_found ∧
  send_segment_file "/data/segments" Sample.fs "/etc/passwd" = not_found.
Proof.
  intros not_found.
  do 4 (split; [reflexivity|]).
  split; [|split; [|split]].
  - apply (proj1 (proj1 (static_routes_resource_not_found (G:=())
        "/data/gallery" "/data/posters" "/data/uploads" "/data/segments"
        Sample.fs "missing.mp4")) NotFound).
    reflexivity.
  - apply (proj2 (proj2 (proj2 (proj1 (static_routes_resource_not_found (G:=())
        "/data/gallery" "/data/posters" "/data/uploads" "/data/segments"
        Sample.fs "locked.zip")))) PermissionError).
    reflexivity.
  - apply (proj1 (proj2 (static_routes_resource_not_found (G:=())
        "/data/gallery" "/data/posters" "/data/uploads" "/data/segments"
        Sample.fs "../../etc/passwd"))).
    reflexivity.
  - apply (proj2 (proj2 (proj2 (proj2 (static_routes_resource_not_found (G:=())
        "/data/gallery" "/data/posters" "/data/uploads" "/data/segments"
        Sample.fs "/etc/passwd"))))).
    reflexivity.
Defined.

Lemma start_frame_index_defaults_to_zero_witness :
  Sample.body "s1" !! "session_id" = Some (PyStr "s1") ∧
  Sample.body "s1" !! "start_frame_index" = None ∧
  sessions (SampleJobs.api ∅ []) !! PyStr "s1" = None ∧
  (∃ frame mimetype,
     propagate_in_video (Sample.body "s1") (SampleJobs.api ∅ [])
       = (Ok (streaming frame mimetype), SampleJobs.api ∅ []) ∧
     SampleJobs.next frame
       = gen_loop Sample.to_json SampleJobs.iter_next "frame"
           (Sample.api_propagate_in_video request_s1)) ∧
  background_propagate (I:=list nat) SampleJobs.launch (Sample.body "s1")
    (SampleJobs.api ∅ [])
    = (Ok started_true,
       snd (start_propagate_background SampleJobs.launch request_s1
              (SampleJobs.api ∅ []))) ∧
  background_propagate (I:=list nat) SampleJobs.launch (Sample.body "s1")
    (SampleJobs.api ∅ [])
    = (Ok started_true,
       {| sessions := <[PyStr "s1" := Registry.pending]> ∅;
          predictor := [request_s1] |}).
Proof.
  split; [reflexivity|]. split; [reflexivity|]. split; [reflexivity|].
  destruct (start_frame_index_defaults_to_zero Sample.to_json
              Sample.api_propagate_in_video SampleJobs.iter_next SampleJobs.launch
              (Sample.body "s1") (PyStr "s1") (SampleJobs.api ∅ [])
              eq_refl eq_refl) as (Hstream & Hbg & Hnew).
  split; [exact Hstream|]. split; [exact Hbg|]. exact (Hnew eq_refl).
Defined.

Lemma stream_progress_headers_constant_witness :
  pull 5 fresh (Sample.api ∅)
    = ([chunk 0; chunk 1; chunk 2], Ok gen_finished,
       {| sessions := ∅; predictor := 3 |}) ∧
  (Forall (λ c, ∃ res m,
             m = frame_chunk Sample.to_json (gen_boundary fresh) res ∧
             c = MultipartResponseBuilder.get_message m ∧
             MultipartResponseBuilder.header (MultipartResponseBuilder.headers m)
               "Frame-Current" = Some "-1" ∧
             MultipartResponseBuilder.header (MultipartResponseBuilder.headers m)
               "Frame-Total" = Some "-1" ∧
             MultipartResponseBuilder.header (MultipartResponseBuilder.headers m)
               "Mask-Type" = Some "RLE[]") [chunk 0; chunk 1; chunk 2]
   ∧ ∀ (b b' : string) (res res' : nat),
       MultipartResponseBuilder.headers (frame_chunk Sample.to_json b res)
         = MultipartResponseBuilder.headers (frame_chunk Sample.to_json b' res')).
Proof.
  split; [reflexivity|].
  apply (stream_progress_headers_constant Sample.to_json
           Sample.api_propagate_in_video Sample.iter_next 5 fresh (Sample.api ∅)
           {| sessions := ∅; predictor := 3 |} [chunk 0; chunk 1; chunk 2]
           (Ok gen_finished)).
  reflexivity.
Defined.


(** * Further properties of the routes *)

(** ** Which paths [safe_join] refuses *)

Lemma normpath_loop_climbs (comps : list string) :
  Forall (λ c, no_sep c = true) comps →
  ∀ (tops : list string) (k : nat),
    Forall (λ c, is_filename c = true) tops →
    ∃ (tops' : list string) (k' : nat),
      Forall (λ c, is_filename c = true) tops' ∧
      posixpath.normpath_loop 0 comps (tops ++ replicate k "..")%list
        = (replicate k' ".." ++ tops')%list ∧
      (k' = 0 ↔ k = 0 ∧ climbs_out (List.length tops) comps = false).
Proof.
  induction 1 as [|comp comps Hsep _ IH]; intros tops k Htops.
  - exists (rev tops), k. split; [by apply Forall_rev|]. split.
    + simpl. by rewrite rev_app_distr, rev_replicate.
    + simpl. split; [by intros ->|by intros [-> _]].
  - cbn [posixpath.normpath_loop climbs_out].
    case_bool_decide as Hskip; [by apply IH|].
    destruct (decide (comp = "..")) as [->|Hdd].
    + assert (bool_decide (".." ≠ "..") = false) as -> by done.
      assert (bool_decide (".." = "..") = true) as -> by done.
      cbn [orb andb Nat.eqb].
      destruct tops as [|t tops].
      * destruct k as [|k]; simpl.
        -- destruct (IH [] 1) as (tops' & k' & Hf & Heq & Hk); [constructor|].
           exists tops', k'. split; [done|]. split; [done|].
           rewrite Hk. split; [by intros [[=] _]|by intros [_ [=]]].
        -- destruct (IH [] (S (S k))) as (tops' & k' & Hf & Heq & Hk); [constructor|].
           exists tops', k'. split; [done|]. split; [done|].
           rewrite Hk. split; [by intros [[=] _]|by intros [[=] _]].
      * inversion Htops as [|? ? Ht Htops']; subst. simpl.
        rewrite bool_decide_eq_false_2
          by (intros [= ->]; by apply is_filename_not_dotdot in Ht).
        by apply IH.
    + rewrite bool_decide_eq_true_2 by done.
      rewrite (bool_decide_eq_false_2 (comp = "..")) by done. simpl.
      apply (IH (comp :: tops) k). constructor; [|done].
      apply is_filename_intro; [done|naive_solver..].
Qed.

Lemma join_comps_cons (t c : string) (l : list string) :
  posixpath.join_comps (t :: c :: l)
    = t +:+ String "/" (posixpath.join_comps (c :: l)).
Proof. done. Qed.

(** A chain of file names is no way out of the directory. *)
Lemma join_comps_filenames_safe (t : string) (l : list string) :
  is_filename t = true →
  startswith (posixpath.join_comps (t :: l)) "/" = false ∧
  String.eqb (posixpath.join_comps (t :: l)) ".." = false ∧
  startswith (posixpath.join_comps (t :: l)) "../" = false.
Proof.
  intros Ht. pose proof Ht as Ht'. unfold is_filename in Ht'.
  apply andb_true_iff in Ht' as [[[Hsep Hne]%andb_true_iff Hdot]%andb_true_iff Hdd].
  apply negb_true_iff in Hdd.
  destruct l as [|c l].
  - change (posixpath.join_comps [t]) with t.
    by rewrite no_sep_prefix_slash, no_sep_prefix_dotdot, Hdd.
  - rewrite join_comps_cons. generalize (posixpath.join_comps (c :: l)). intros r.
    destruct t as [|c1 [|c2 [|c3 t]]]; [done|..].
    + cbv [String.append]. cbn -[Ascii.eqb String.eqb] in *.
      rewrite andb_true_r in Hsep.
      apply negb_true_iff in Hsep. rewrite (Ascii.eqb_sym "/" c1).
      unfold posixpath.sep in Hsep. rewrite Hsep.
      split; [done|]. split; [|by rewrite andb_false_r].
      apply String.eqb_neq. by intros [= _ ?].
    + cbv [String.append]. cbn -[Ascii.eqb String.eqb] in *.
      apply andb_true_iff in Hsep as [Hc1 _]. apply negb_true_iff in Hc1.
      unfold posixpath.sep in Hc1. rewrite (Ascii.eqb_sym "/" c1), Hc1.
      split; [done|]. split; [apply String.eqb_neq; by intros [=]|].
      destruct (Ascii.eqb_spec "." c1) as [<-|]; [|done].
      destruct (Ascii.eqb_spec "." c2) as [<-|]; [|done].
      done.
    + cbv [String.append]. cbn -[Ascii.eqb String.eqb] in *.
      apply andb_true_iff in Hsep as [Hc1 [Hc2 [Hc3 _]%andb_true_iff]%andb_true_iff].
      apply negb_true_iff in Hc1, Hc3. unfold posixpath.sep in Hc1, Hc3.
      rewrite (Ascii.eqb_sym "/" c1), Hc1, (Ascii.eqb_sym "/" c3), Hc3.
      split; [done|]. split; [apply String.eqb_neq; by intros [=]|].
      by rewrite !andb_false_r.
Qed.

(** A relative path normalises to a way out of the directory exactly
    when its components climb above it. *)
Lemma normpath_relative_climbs (path : string) :
  path ≠ "" → startswith path "/" = false →
  if climbs_out 0 (posixpath.split path)
  then posixpath.normpath path = ".."
       ∨ startswith (posixpath.normpath path) "../" = true
  else stays_inside (posixpath.normpath path) ∧
       startswith (posixpath.normpath path) "/" = false ∧
       String.eqb (posixpath.normpath path) ".." = false ∧
       startswith (posixpath.normpath path) "../" = false.
Proof.
  intros Hne Hrel. unfold posixpath.normpath, posixpath.initial_slashes.
  rewrite (proj2 (String.eqb_neq _ _) Hne), Hrel.
  destruct (normpath_loop_climbs (posixpath.split path)) with (tops := @nil string) (k := 0)
    as (tops & k & Htops & Hloop & Hk).
  { apply List.Forall_forall. intros c Hc%list_elem_of_In.
    by apply (split_no_sep path). }
  { constructor. }
  simpl in Hloop, Hk. rewrite Hloop. cbn [replicate String.concat].
  change ("" +:+ ?x) with x.
  destruct k as [|k].
  - destruct (proj1 Hk eq_refl) as [_ ->].
    destruct tops as [|t tops]; [by split; [right; left|]|].
    inversion Htops as [|? ? Ht _]; subst.
    pose proof (join_comps_nonempty t tops (is_filename_nonempty t Ht)) as Hj.
    simpl app. rewrite (proj2 (String.eqb_neq _ _) Hj).
    split; [right; right; by exists (t :: tops)|].
    by apply join_comps_filenames_safe.
  - destruct (climbs_out 0 (posixpath.split path)) eqn:Hc;
      [|discriminate (proj2 Hk (conj eq_refl eq_refl))].
    change (replicate (S k) ".." ++ tops)%list
      with (".." :: (replicate k ".." ++ tops)%list).
    pose proof (join_comps_nonempty ".." (replicate k ".." ++ tops)%list) as Hj.
    rewrite (proj2 (String.eqb_neq _ _) (Hj ltac:(done))).
    apply join_comps_dotdot.
Qed.

(** [safe_join] refuses exactly the paths that leave the directory. *)
Lemma safe_join_refuses_iff (directory path : string) :
  safe_join directory path =
    if traversal path then None
    else Some (posixpath.join (root_of directory)
                 (if String.eqb path "" then "" else posixpath.normpath path)).
Proof.
  unfold traversal. destruct (String.eqb path "") eqn:Hp.
  - by apply String.eqb_eq in Hp as ->.
  - apply String.eqb_neq in Hp.
    destruct (startswith path "/") eqn:Habs.
    + by apply safe_join_refuses_absolute.
    + pose proof (normpath_relative_climbs path Hp Habs) as Hn.
      unfold safe_join. rewrite (proj2 (String.eqb_neq _ _) Hp). cbn [negb orb].
      destruct (climbs_out 0 (posixpath.split path)).
      * destruct Hn as [->| ->]; [done|by rewrite !orb_true_r].
      * by destruct Hn as (_ & -> & -> & ->).
Qed.

(** ** Static media routes: traversal and harmless paths *)

Section StaticRouteTraversal.

Context {G : Type}.
Variables GALLERY_PATH POSTERS_PATH UPLOADS_PATH SEGMENTS_PATH : string.
Variable fs : filesystem.

(** X2. A request path that is absolute, or whose components climb
    above the root at some point, gets the error "resource not found"
    from each static media route, whatever the file system holds, also
    when the path names an existing file outside the root. *)
Theorem static_routes_refuse_traversal (path : string) :
  traversal path = true →
  send_gallery_video (G:=G) GALLERY_PATH fs path
    = Raise (ValueError "resource not found") ∧
  send_poster_image (G:=G) POSTERS_PATH fs path
    = Raise (ValueError "resource not found") ∧
  send_uploaded_video (G:=G) UPLOADS_PATH fs path
    = Raise (ValueError "resource not found") ∧
  send_segment_file (G:=G) SEGMENTS_PATH fs path
    = Raise (ValueError "resource not found").
Proof.
  intros Htr.
  unfold send_gallery_video, send_poster_image, send_uploaded_video,
    send_segment_file, send_from_directory.
  rewrite !safe_join_refuses_iff, Htr. done.
Qed.

(** X3. A non-empty request path that does not leave the root is
    looked up at its normal form under the root, so that [.] and
    harmless [..] segments do not matter: when a regular file is there,
    the route sends it, inline for gallery, posters and uploads and as
    an attachment for segments. *)
Theorem static_routes_serve_normalised (path content : string) :
  traversal path = false → path ≠ "" →
  (stat fs (posixpath.join (root_of GALLERY_PATH) (posixpath.normpath path))
     = Some (Regular content) →
   send_gallery_video (G:=G) GALLERY_PATH fs path
     = Ok (send_file (posixpath.join (root_of GALLERY_PATH) (posixpath.normpath path))
             content false)) ∧
  (stat fs (posixpath.join (root_of POSTERS_PATH) (posixpath.normpath path))
     = Some (Regular content) →
   send_poster_image (G:=G) POSTERS_PATH fs path
     = Ok (send_file (posixpath.join (root_of POSTERS_PATH) (posixpath.normpath path))
             content false)) ∧
  (stat fs (posixpath.join (root_of UPLOADS_PATH) (posixpath.normpath path))
     = Some (Regular content) →
   send_uploaded_video (G:=G) UPLOADS_PATH fs path
     = Ok (send_file (posixpath.join (root_of UPLOADS_PATH) (posixpath.normpath path))
             content false)) ∧
  (stat fs (posixpath.join (root_of SEGMENTS_PATH) (posixpath.normpath path))
     = Some (Regular content) →
   send_segment_file (G:=G) SEGMENTS_PATH fs path
     = Ok (send_file (posixpath.join (root_of SEGMENTS_PATH) (posixpath.normpath path))
             content true)).
Proof.
  intros Htr Hne.
  unfold send_gallery_video, send_poster_image, send_uploaded_video,
    send_segment_file, send_from_directory.
  rewrite !safe_join_refuses_iff, Htr, (proj2 (String.eqb_neq _ _) Hne).
  repeat split; by intros ->.
Qed.

End StaticRouteTraversal.

(** ** The download route beside the static segments route *)

Lemma split_app_sep (a b : string) :
  posixpath.split (a +:+ String "/" b)
    = (posixpath.split a ++ posixpath.split b)%list.
Proof.
  induction a as [|c a IH]; [done|].
  change (String c a +:+ String "/" b) with (String c (a +:+ String "/" b)).
  cbn [posixpath.split]. rewrite IH.
  destruct (Ascii.eqb c posixpath.sep); [done|].
  destruct (posixpath.split a) eqn:Hs; [by destruct (split_nonempty a)|done].
Qed.

Lemma last_snoc {A} (l : list A) (x d : A) : List.last (l ++ [x]) d = x.
Proof. induction l as [|y [|z l] IH]; done. Qed.

(** The name of a file name put after a separator is that file name. *)
Lemma Path_name_after_sep (a n : string) :
  is_filename n = true → Path_name (a +:+ String "/" n) = n.
Proof.
  intros Hn. pose proof Hn as Hn'. unfold is_filename in Hn'.
  apply andb_true_iff in Hn' as [[[Hsep Hne]%andb_true_iff Hdot]%andb_true_iff _].
  apply negb_true_iff in Hne, Hdot. apply String.eqb_neq in Hne, Hdot.
  unfold Path_name.
  rewrite split_app_sep, (split_of_no_sep n Hsep), list.filter_app.
  rewrite (list.filter_cons_True _ n []) by done.
  rewrite list.filter_nil. apply last_snoc.
Qed.

Lemma endswith_sep_inv (a : string) :
  endswith_sep a = true → ∃ a0, a = a0 +:+ "/".
Proof.
  induction a as [|c a IH]; [done|]. destruct a as [|c' a].
  - cbn -[Ascii.eqb]. intros Hc%Ascii.eqb_eq. subst. by exists "".
  - intros Ha. destruct (IH Ha) as [a0 ->]. by exists (String c a0).
Qed.

Lemma append_assoc (a b c : string) : (a +:+ b) +:+ c = a +:+ (b +:+ c).
Proof.
  induction a as [|x a IH]; [done|].
  change (String x ((a +:+ b) +:+ c) = String x (a +:+ (b +:+ c))).
  by rewrite IH.
Qed.

(** Joining a file name to a directory and taking the name gives the
    file name back. *)
Lemma Path_name_join (directory n : string) :
  directory ≠ "" → is_filename n = true →
  Path_name (posixpath.join directory n) = n.
Proof.
  intros Hd Hn. pose proof Hn as Hn'. unfold is_filename in Hn'.
  apply andb_true_iff in Hn' as [[[Hsep _]%andb_true_iff _]%andb_true_iff _].
  unfold posixpath.join.
  rewrite (no_sep_prefix_slash n Hsep), (proj2 (String.eqb_neq _ _) Hd).
  cbn [orb]. destruct (endswith_sep directory) eqn:He.
  - apply endswith_sep_inv in He as [a0 ->].
    rewrite append_assoc. by apply Path_name_after_sep.
  - by apply Path_name_after_sep.
Qed.

Section DownloadBesideSegments.

Context {P I : Type}.
Variable SEGMENTS_PATH : string.
Variable fs : filesystem.

Local Abbreviation API := (@InferenceAPI P).

(** X4. For a session whose status carries a non-empty result path,
    the download route looks up the same entry as the static segments
    route asked for the file name of that path: a file the download
    route sends is the one the segments route sends, while a failure
    of the lookup reaches the caller of the download route as it is
    (NotFound, PermissionError), where the segments route turns it into
    "resource not found". *)
Theorem download_segments_beside_segment_route
    (sid : string) (api : API) (st : PropagationStatus) (p : string) :
  sessions api !! PyStr sid = Some st →
  result_path st = Some p → p ≠ "" →
  (∀ resp, fst (download_segments (I:=I) SEGMENTS_PATH fs sid api) = Ok resp →
     send_segment_file SEGMENTS_PATH fs (Path_name p) = Ok resp) ∧
  (∀ e, fst (download_segments (I:=I) SEGMENTS_PATH fs sid api) = Raise e →
     (e = NotFound ∨ e = PermissionError) ∧
     send_segment_file (G:=@generator I) SEGMENTS_PATH fs (Path_name p)
       = Raise (ValueError "resource not found")).
Proof.
  intros Hst Hpath Hp.
  rewrite (download_segments_known SEGMENTS_PATH fs sid api st Hst), Hpath.
  rewrite (proj2 (String.eqb_neq _ _) Hp). cbn [fst].
  unfold send_segment_file. split.
  - by intros resp ->.
  - intros e He.
    assert (e = NotFound ∨ e = PermissionError) as He'.
    { revert He. unfold send_from_directory.
      repeat case_match; intros [= <-]; auto. }
    split; [done|]. rewrite He. by destruct He' as [-> | ->].
Qed.

(** X5. An artifact stored directly under the segments root comes back:
    when the status of a session carries as result path the join of
    the segments root and a file name, and a regular file is there, the
    download route sends that very file as an attachment. *)
Theorem download_segments_round_trip
    (sid : string) (api : API) (st : PropagationStatus) (n content : string) :
  sessions api !! PyStr sid = Some st →
  is_filename n = true →
  result_path st = Some (posixpath.join (root_of SEGMENTS_PATH) n) →
  fs (posixpath.join (root_of SEGMENTS_PATH) n) = Some (Regular content) →
  download_segments (I:=I) SEGMENTS_PATH fs sid api
    = (Ok (send_file (posixpath.join (root_of SEGMENTS_PATH) n) content true), api).
Proof.
  intros Hst Hn Hpath Hfs.
  pose proof (Path_name_join (root_of SEGMENTS_PATH) n
                (root_of_nonempty SEGMENTS_PATH) Hn) as Hname.
  pose proof Hn as Hn'. unfold is_filename in Hn'.
  apply andb_true_iff in Hn' as [[[Hsep Hne]%andb_true_iff Hdot]%andb_true_iff Hdd].
  apply negb_true_iff in Hne, Hdot, Hdd. apply String.eqb_neq in Hne, Hdot.
  rewrite (download_segments_known SEGMENTS_PATH fs sid api st Hst), Hpath.
  destruct (String.eqb (posixpath.join (root_of SEGMENTS_PATH) n) "") eqn:He.
  { apply String.eqb_eq in He. rewrite He in Hname. by destruct Hne. }
  rewrite Hname. unfold send_from_directory.
  rewrite safe_join_component, Hdd by done.
  unfold stat. by rewrite join_filename_not_dir, Hfs.
Qed.

End DownloadBesideSegments.

(** ** The POST routes at their edges *)

Section PostRouteEdges.

Context {P Result I : Type}.
Variable to_json : Result → string.
Variable api_propagate_in_video : PropagateInVideoRequest → I.
Variable iter_next : I → P → result (option (Result * I)) * P.
Variable launch : PropagateInVideoRequest → P → P.

Local Abbreviation API := (@InferenceAPI P).
Local Abbreviation gen_next := (gen_next to_json api_propagate_in_video iter_next).
Local Abbreviation drain := (drain to_json api_propagate_in_video iter_next).
Local Abbreviation chunk_of b r :=
  (MultipartResponseBuilder.get_message (frame_chunk to_json b r)).

(** X6. A body without session_id makes both POST routes raise
    KeyError for that key before the inference API is reached: no
    stream is set up, no job is registered, the state is as before. *)
Theorem post_without_session_id (data : gmap string pyval) (api : API) :
  data !! "session_id" = None →
  propagate_in_video (I:=I) data api = (Raise (KeyError "session_id"), api) ∧
  background_propagate (I:=I) launch data api = (Raise (KeyError "session_id"), api).
Proof.
  intros Hsid.
  unfold propagate_in_video, background_propagate, mbind, M_bind, getitem.
  by rewrite Hsid.
Qed.

(** X7. A start_frame_index that the body carries is handed to the
    inference API as it is, by both POST routes and in the same
    request: it is neither checked nor replaced, so that a null, a
    negative number or a text reach the inference API.  The streaming
    generator asks the collaborator for the results of that request;
    the background route starts that request, so that for a new
    session the job launched carries that very start frame. *)
Theorem start_frame_index_passed_unchanged
    (data : gmap string pyval) (sid v : pyval) (api : API) :
  data !! "session_id" = Some sid →
  data !! "start_frame_index" = Some v →
  let request :=
    {| type := "propagate_in_video"; session_id := sid;
       start_frame_index := v |} in
  (∃ frame mimetype,
     propagate_in_video data api = (Ok (streaming frame mimetype), api) ∧
     gen_next frame = gen_loop to_json iter_next "frame" (api_propagate_in_video request))
  ∧ background_propagate (I:=I) launch data api =
      (Ok (make_response (json_dumps [("started", PyBool true)]) 200),
       snd (start_propagate_background launch request api))
  ∧ (sessions api !! sid = None →
     background_propagate (I:=I) launch data api =
       (Ok (make_response (json_dumps [("started", PyBool true)]) 200),
        {| sessions := <[sid := Registry.pending]> (sessions api);
           predictor := launch request (predictor api) |})).
Proof.
  intros Hsid Hsfi request.
  assert (get data "start_frame_index" (PyInt 0) = v) as Hget
    by (unfold get; by rewrite Hsfi).
  pose proof (background_propagate_with_session (I:=I) launch data sid api Hsid) as Hbg.
  rewrite Hget in Hbg. fold request in Hbg.
  split; [|split].
  - eexists _, _. split; [by apply propagate_in_video_with_session|].
    by rewrite Hget.
  - exact Hbg.
  - intros Hnew. rewrite Hbg.
    by rewrite (start_propagate_background_new launch request api Hnew).
Qed.

Lemma drain_raises (rs : list Result) (e : exn) (p' : P) :
  ∀ (g : generator) (it : I) (api : API) (n : nat),
    gen_iter api_propagate_in_video g = Some it →
    yields_then_raises iter_next it (predictor api) rs e p' →
    (List.length rs < n)%nat →
    drain n g api =
      (map (λ r, chunk_of (gen_boundary g) r) rs, Raise e,
       {| sessions := sessions api; predictor := p' |}).
Proof.
  induction rs as [|r rs IH]; intros g it api n Hit Hy Hn;
    (destruct n as [|n]; [simpl in Hn; lia|]);
    inversion Hy as [? ? ? ? Hnext|? ? ? it' p1 ? ? ? Hnext Hy']; subst;
    simpl; rewrite (gen_next_iter to_json api_propagate_in_video iter_next g it Hit);
    unfold gen_loop; rewrite Hnext.
  - done.
  - by rewrite (IH (gen_suspended (gen_boundary g) it') it'
                  {| sessions := sessions api; predictor := p1 |} n)
      by (done || simpl in *; lia).
Qed.

(** X8. The streaming route answers with a stream before the
    collaborator is asked for anything; when the collaborator then
    yields some results and raises, the chunks of those results have
    been sent, in order, the error ends the stream where it occurred,
    no further chunk follows, and the registry is as before. *)
Theorem stream_error_ends_stream
    (data : gmap string pyval) (sid : pyval) (api : API)
    (rs : list Result) (e : exn) (p' : P) :
  data !! "session_id" = Some sid →
  yields_then_raises iter_next
    (api_propagate_in_video
       {| type := "propagate_in_video"; session_id := sid;
          start_frame_index := get data "start_frame_index" (PyInt 0) |})
    (predictor api) rs e p' →
  ∃ frame,
    propagate_in_video data api =
      (Ok (streaming frame "multipart/x-savi-stream; boundary=frame"), api) ∧
    ∀ n, (List.length rs < n)%nat →
      drain n frame api =
        (map (λ r, chunk_of "frame" r) rs, Raise e,
         {| sessions := sessions api; predictor := p' |}).
Proof.
  intros Hsid Hy. eexists. split; [by apply propagate_in_video_with_session|].
  intros n Hn.
  by rewrite (drain_raises rs e p'
                (gen_created "frame" sid (get data "start_frame_index" (PyInt 0)))
                _ api n eq_refl Hy Hn).
Qed.

(** X9. The boundary that the streaming response announces in its
    content type is the boundary with which every chunk of that
    response is built, however far the response is drained. *)
Theorem stream_boundary_matches_mimetype
    (data : gmap string pyval) (api api' : API)
    (frame : generator) (mimetype : string) :
  propagate_in_video data api = (Ok (streaming frame mimetype), api') →
  mimetype = "multipart/x-savi-stream; boundary=" +:+ gen_boundary frame ∧
  ∀ (n : nat) (api0 : API),
    Forall (λ c, ∃ res,
              c = MultipartResponseBuilder.get_message
                    (MultipartResponseBuilder.build (gen_boundary frame)
                       stream_headers (to_json res)))
           (drain n frame api0).1.1.
Proof.
  unfold propagate_in_video, mbind, M_bind, getitem.
  destruct (data !! "session_id") as [sid|]; [|done].
  intros [= <- <- <-]. split; [done|].
  intros n api0.
  apply (drain_chunks to_json api_propagate_in_video iter_next).
Qed.

End PostRouteEdges.

(** ** The further properties at the sample collaborators *)

Lemma static_routes_serve_inside_root_witness :
  (send_gallery_video "/data/gallery" SampleMedia.fs "a.mp4"
     = Ok (send_file "/data/gallery/a.mp4" "gallery video" false : Response ())) ∧
  (send_segment_file "/data/segments" SampleMedia.fs "./sub/../a.mp4"
     = Ok (send_file "/data/segments/a.mp4" "segment" true : Response ())) ∧
  (∃ rel content, stays_inside rel ∧
     (send_file "/data/gallery/a.mp4" "gallery video" false : Response ())
       = send_file (posixpath.join (root_of "/data/gallery") rel) content false) ∧
  (∃ rel content, stays_inside rel ∧
     (send_file "/data/segments/a.mp4" "segment" true : Response ())
       = send_file (posixpath.join (root_of "/data/segments") rel) content true).
Proof.
  split; [reflexivity|]. split; [reflexivity|]. split.
  - apply (proj1 (static_routes_serve_inside_root (G:=())
        "/data/gallery" "/data/posters" "/data/uploads" "/data/segments"
        SampleMedia.fs "a.mp4" _)).
    reflexivity.
  - apply (proj2 (proj2 (proj2 (static_routes_serve_inside_root (G:=())
        "/data/gallery" "/data/posters" "/data/uploads" "/data/segments"
        SampleMedia.fs "./sub/../a.mp4" _)))).
    reflexivity.
Defined.

Lemma static_routes_refuse_traversal_witness :
  traversal "sub/../../../etc/passwd" = true ∧
  SampleMedia.fs "/etc/passwd" = Some (Regular "root") ∧
  send_gallery_video (G:=()) "/data/gallery" SampleMedia.fs "sub/../../../etc/passwd"
    = Raise (ValueError "resource not found") ∧
  send_poster_image (G:=()) "/data/posters" SampleMedia.fs "sub/../../../etc/passwd"
    = Raise (ValueError "resource not found") ∧
  send_uploaded_video (G:=()) "/data/uploads" SampleMedia.fs "sub/../../../etc/passwd"
    = Raise (ValueError "resource not found") ∧
  send_segment_file (G:=()) "/data/segments" SampleMedia.fs "sub/../../../etc/passwd"
    = Raise (ValueError "resource not found").
Proof.
  split; [reflexivity|]. split; [reflexivity|].
  apply (static_routes_refuse_traversal (G:=())
           "/data/gallery" "/data/posters" "/data/uploads" "/data/segments"
           SampleMedia.fs "sub/../../../etc/passwd").
  reflexivity.
Defined.

Lemma static_routes_serve_normalised_witness :
  traversal "./sub/../a.mp4" = false ∧
  send_gallery_video (G:=()) "/data/gallery" SampleMedia.fs "./sub/../a.mp4"
    = Ok (send_file "/data/gallery/a.mp4" "gallery video" false) ∧
  send_segment_file (G:=()) "/data/segments" SampleMedia.fs "./sub/../a.mp4"
    = Ok (send_file "/data/segments/a.mp4" "segment" true).
Proof.
  split; [reflexivity|]. split.
  - apply (proj1 (static_routes_serve_normalised (G:=())
        "/data/gallery" "/data/posters" "/data/uploads" "/data/segments"
        SampleMedia.fs "./sub/../a.mp4" "gallery video" eq_refl ltac:(discriminate))).
    reflexivity.
  - apply (proj2 (proj2 (proj2 (static_routes_serve_normalised (G:=())
        "/data/gallery" "/data/posters" "/data/uploads" "/data/segments"
        SampleMedia.fs "./sub/../a.mp4" "segment" eq_refl ltac:(discriminate))))).
    reflexivity.
Defined.

Lemma download_segments_beside_segment_route_witness :
  sessions (Sample.api SampleFlaky.stored) !! PyStr "s1" = Some SampleFlaky.stored_status ∧
  sessions (Sample.api SampleFlaky.locked) !! PyStr "s1" = Some SampleFlaky.locked_status ∧
  send_segment_file (G:=@generator (list nat)) "/data/segments" Sample.fs
    (Path_name "/data/segments/s1.zip")
    = Ok (send_file "/data/segments/s1.zip" "masks" true) ∧
  ((PermissionError = NotFound ∨ PermissionError = PermissionError) ∧
   send_segment_file (G:=@generator (list nat)) "/data/segments" Sample.fs
     (Path_name "/data/segments/locked.zip")
     = Raise (ValueError "resource not found")).
Proof.
  assert (sessions (Sample.api SampleFlaky.stored) !! PyStr "s1"
            = Some SampleFlaky.stored_status) as Hstored by (by vm_compute).
  assert (sessions (Sample.api SampleFlaky.locked) !! PyStr "s1"
            = Some SampleFlaky.locked_status) as Hlocked by (by vm_compute).
  split; [exact Hstored|]. split; [exact Hlocked|]. split.
  - apply (proj1 (download_segments_beside_segment_route (I:=list nat)
        "/data/segments" Sample.fs "s1" (Sample.api SampleFlaky.stored)
        SampleFlaky.stored_status "/data/segments/s1.zip"
        Hstored eq_refl ltac:(discriminate))).
    by vm_compute.
  - apply (proj2 (download_segments_beside_segment_route (I:=list nat)
        "/data/segments" Sample.fs "s1" (Sample.api SampleFlaky.locked)
        SampleFlaky.locked_status "/data/segments/locked.zip"
        Hlocked eq_refl ltac:(discriminate))).
    by vm_compute.
Defined.

Lemma download_segments_round_trip_witness :
  sessions (Sample.api SampleFlaky.stored) !! PyStr "s1" = Some SampleFlaky.stored_status ∧
  is_filename "s1.zip" = true ∧
  download_segments (I:=list nat) "/data/segments" Sample.fs "s1"
    (Sample.api SampleFlaky.stored)
    = (Ok (send_file (posixpath.join (root_of "/data/segments") "s1.zip") "masks" true),
       Sample.api SampleFlaky.stored).
Proof.
  assert (sessions (Sample.api SampleFlaky.stored) !! PyStr "s1"
            = Some SampleFlaky.stored_status) as Hstored by (by vm_compute).
  split; [exact Hstored|]. split; [reflexivity|].
  apply (download_segments_round_trip (I:=list nat) "/data/segments" Sample.fs "s1"
           (Sample.api SampleFlaky.stored) SampleFlaky.stored_status "s1.zip" "masks"
           Hstored); reflexivity.
Defined.

Lemma post_without_session_id_witness :
  (∅ : gmap string pyval) !! "session_id" = None ∧
  propagate_in_video (I:=list nat) ∅ (SampleJobs.api running [request_s1])
    = (Raise (KeyError "session_id"), SampleJobs.api running [request_s1]) ∧
  background_propagate (I:=list nat) SampleJobs.launch ∅
    (SampleJobs.api running [request_s1])
    = (Raise (KeyError "session_id"), SampleJobs.api running [request_s1]).
Proof.
  split; [reflexivity|].
  apply (post_without_session_id (I:=list nat) SampleJobs.launch ∅
           (SampleJobs.api running [request_s1])).
  reflexivity.
Defined.

Lemma start_frame_index_passed_unchanged_witness :
  SampleFlaky.body_null !! "session_id" = Some (PyStr "s1") ∧
  SampleFlaky.body_null !! "start_frame_index" = Some PyNone ∧
  sessions (SampleJobs.api ∅ []) !! PyStr "s1" = None ∧
  (∃ frame mimetype,
     propagate_in_video SampleFlaky.body_null (SampleJobs.api ∅ [])
       = (Ok (streaming frame mimetype), SampleJobs.api ∅ []) ∧
     SampleJobs.next frame
       = gen_loop Sample.to_json SampleJobs.iter_next "frame"
           (Sample.api_propagate_in_video SampleFlaky.request_null)) ∧
  background_propagate (I:=list nat) SampleJobs.launch SampleFlaky.body_null
    (SampleJobs.api ∅ [])
    = (Ok started_true,
       snd (start_propagate_background SampleJobs.launch SampleFlaky.request_null
              (SampleJobs.api ∅ []))) ∧
  background_propagate (I:=list nat) SampleJobs.launch SampleFlaky.body_null
    (SampleJobs.api ∅ [])
    = (Ok started_true,
       {| sessions := <[PyStr "s1" := Registry.pending]> ∅;
          predictor := [SampleFlaky.request_null] |}).
Proof.
  assert (SampleFlaky.body_null !! "session_id" = Some (PyStr "s1")) as Hsid
    by (by vm_compute).
  assert (SampleFlaky.body_null !! "start_frame_index" = Some PyNone) as Hsfi
    by (by vm_compute).
  split; [exact Hsid|]. split; [exact Hsfi|]. split; [reflexivity|].
  destruct (start_frame_index_passed_unchanged Sample.to_json
              Sample.api_propagate_in_video SampleJobs.iter_next SampleJobs.launch
              SampleFlaky.body_null (PyStr "s1") PyNone (SampleJobs.api ∅ [])
              Hsid Hsfi) as (Hstream & Hbg & Hnew).
  split; [exact Hstream|]. split; [exact Hbg|]. exact (Hnew eq_refl).
Defined.

Lemma sample_yields_then_raises :
  yields_then_raises SampleFlaky.iter_next
    (Sample.api_propagate_in_video request_s1) 0
    [0; 1] (RuntimeError "inference failed") 2.
Proof. repeat (eapply raises_later; [reflexivity|]). by apply raises_now. Qed.

Lemma stream_error_ends_stream_witness :
  Sample.body "s1" !! "session_id" = Some (PyStr "s1") ∧
  yields_then_raises SampleFlaky.iter_next
    (Sample.api_propagate_in_video
       {| type := "propagate_in_video"; session_id := PyStr "s1";
          start_frame_index := get (Sample.body "s1") "start_frame_index" (PyInt 0) |})
    (predictor (Sample.api running)) [0; 1] (RuntimeError "inference failed") 2 ∧
  ∃ frame,
    propagate_in_video (Sample.body "s1") (Sample.api running) =
      (Ok (streaming frame "multipart/x-savi-stream; boundary=frame"),
       Sample.api running) ∧
    ∀ n, (List.length [0; 1] < n)%nat →
      SampleFlaky.pull n frame (Sample.api running) =
        (map chunk [0; 1], Raise (RuntimeError "inference failed"),
         {| sessions := sessions (Sample.api running); predictor := 2 |}).
Proof.
  split; [reflexivity|]. split; [exact sample_yields_then_raises|].
  apply (stream_error_ends_stream Sample.to_json Sample.api_propagate_in_video
           SampleFlaky.iter_next (Sample.body "s1") (PyStr "s1")
           (Sample.api running) [0; 1] (RuntimeError "inference failed") 2).
  - reflexivity.
  - exact sample_yields_then_raises.
Defined.

Lemma stream_boundary_matches_mimetype_witness :
  propagate_in_video (Sample.body "s1") (Sample.api ∅)
    = (Ok (streaming fresh "multipart/x-savi-stream; boundary=frame"), Sample.api ∅) ∧
  "multipart/x-savi-stream; boundary=frame"
    = "multipart/x-savi-stream; boundary=" +:+ gen_boundary fresh ∧
  ∀ (n : nat) (api0 : API),
    Forall (λ c, ∃ res,
              c = MultipartResponseBuilder.get_message
                    (MultipartResponseBuilder.build (gen_boundary fresh)
                       stream_headers (Sample.to_json res)))
           (pull n fresh api0).1.1.
Proof.
  split; [reflexivity|].
  apply (stream_boundary_matches_mimetype Sample.to_json
           Sample.api_propagate_in_video Sample.iter_next
           (Sample.body "s1") (Sample.api ∅) (Sample.api ∅) fresh
           "multipart/x-savi-stream; boundary=frame").
  reflexivity.
Defined.
